(** * State validity checking for OMPL planning (moveit2, ompl_interface)

    A shallow embedding of [state_validity_checker.cpp]: the two checker
    variants [StateValidityChecker] and
    [ConstrainedPlanningStateValidityChecker], their four [isValid]
    overloads, [cost], [clearance] and [setVerbose].

    The planner states live in a heap and carry their own cache block; the
    checker reaches them through pointers (and through [const_cast]), so the
    heap is threaded explicitly.  Every call of an external collaborator
    (bounds, configuration translation, path constraints, feasibility,
    collision) is recorded in a trace, which is what the short-circuit and
    caching properties are stated about.

    The boolean [isValid] of [StateValidityChecker] names an object [res]
    before and after the block that declares its own [res]; the two are
    kept apart here as C++ scoping keeps them apart. *)

From Stdlib Require Import ZArith List Bool String Lia.
From Stdlib Require Import SpecFloat.
From stdpp Require Import base option gmap.

Import ListNotations.
Local Open Scope list_scope.

(** ** IEEE 754 binary64 values ([double]) *)

Module Double.
Definition prec : Z := 53.
Definition emax : Z := 1024.

Definition double : Type := spec_float.

(** [0.0] *)
Definition zero : double := S754_zero false.
(** [std::numeric_limits<double>::infinity()] *)
Definition infinity : double := S754_infinity false.
Definition nan : double := S754_nan.

Definition add : double -> double -> double := SFadd prec emax.
Definition mul : double -> double -> double := SFmul prec emax.
(** [x < y] and [x <= y]; both are false as soon as one side is NaN. *)
Definition ltb : double -> double -> bool := SFltb.
Definition leb : double -> double -> bool := SFleb.

Definition isnan (x : double) : bool :=
  match x with S754_nan => true | _ => false end.

(** The double nearest to an integer (exact for the small ones used in
    the examples). *)
Definition of_Z (z : Z) : double := binary_normalize prec emax z 0 false.
End Double.

Abbreviation double := Double.double.

(** [Eigen::VectorXd::hasNaN()] *)
Definition hasNaN (v : list double) : bool := existsb Double.isnan v.

(** ** Data model *)

(** Addresses of planner states. *)
Definition loc : Type := positive.

(** A [const ompl::base::State*]; [None] is [nullptr]. *)
Definition ptr : Type := option loc.

Module StateType.
(** Modelled from the spec: [ModelBasedStateSpace::StateType] is declared
    in a header that is not part of the sources.  Section 3 of the
    specification gives its cache block as the four fields
    [validity_known], [marked_valid], [distance_known] and [distance],
    written only through mark-valid, mark-invalid and
    mark-invalid-with-distance. *)
Record t := mk {
  values : list double;
  validity_known : bool;
  marked_valid : bool;
  distance_known : bool;
  distance : double
}.

Definition isValidityKnown (s : t) : bool := validity_known s.
Definition isMarkedValid (s : t) : bool := marked_valid s.
Definition isGoalDistanceKnown (s : t) : bool := distance_known s.

(** Modelled from the spec: mark-valid records a known, positive verdict
    and leaves the distance alone. *)
Definition markValid (s : t) : t :=
  mk (values s) true true (distance_known s) (distance s).

(** Modelled from the spec: mark-invalid records a known, negative
    verdict and leaves the distance alone. *)
Definition markInvalid (s : t) : t :=
  mk (values s) true false (distance_known s) (distance s).

(** Modelled from the spec: mark-invalid-with-distance stores the
    distance, flags it as known, and then marks the state invalid. *)
Definition markInvalid_d (d : double) (s : t) : t :=
  markInvalid (mk (values s) (validity_known s) (marked_valid s) true d).

(** The same point of the configuration space with another cache block. *)
Definition with_cache (c : bool * bool * bool * double) (s : t) : t :=
  let '(vk, mv, dk, d) := c in mk (values s) vk mv dk d.
End StateType.

(** What the heap holds: ambient states, and the wrappers a
    [ConstrainedStateSpace] hands out, which point to an ambient state
    ([getState()]) and own no cache of their own. *)
Inductive Object :=
| ModelBasedState (st : StateType.t)
| ConstrainedState (getState : loc).

(** What a state-space collaborator can see of the state it is handed: its
    kind and its coordinates, never the cache block. *)
Inductive StateView :=
| AmbientView (vals : list double)
| WrappedView (vals : list double).

Module CollisionRequest.
Record t := mk {
  group_name : string;
  distance : bool;
  cost : bool;
  verbose : bool
}.
(** Modelled from the spec: a default-constructed request, declared in a
    header that is not part of the sources, is the simple mode of section 3:
    no distance, no cost, not verbose, no group. *)
Definition default : t := mk EmptyString false false false.
Definition set_group_name (g : string) (r : t) : t :=
  mk g (distance r) (cost r) (verbose r).
Definition set_distance (b : bool) (r : t) : t :=
  mk (group_name r) b (cost r) (verbose r).
Definition set_cost (b : bool) (r : t) : t :=
  mk (group_name r) (distance r) b (verbose r).
Definition set_verbose (b : bool) (r : t) : t :=
  mk (group_name r) (distance r) (cost r) b.
End CollisionRequest.

Module CostSource.
(** Modelled from the spec: a cost source has a cost weight and a spatial
    extent, its volume ([getVolume()], declared in a header that is not
    part of the sources). *)
Record t := mk { cost : double; getVolume : double }.
End CostSource.

Module CollisionResult.
Record t := mk {
  collision : bool;
  distance : double;
  cost_sources : list CostSource.t
}.
Definition set_collision (b : bool) (r : t) : t :=
  mk b (distance r) (cost_sources r).
End CollisionResult.

Module ConstraintEvaluationResult.
Record t := mk { satisfied : bool; distance : double }.
End ConstraintEvaluationResult.

(** ** Collaborators

    Everything the checker delegates to.  [RobotState] is the type of the
    configuration scratch buffer. *)
Record Collaborators (RobotState : Type) := {
  (** [si_->satisfiesBounds(state)] *)
  satisfiesBounds : StateView -> bool;
  (** [getOMPLStateSpace()->copyToRobotState(robot_state, state)]: the new
      content of the scratch buffer, from its old content and the state. *)
  copyToRobotState : RobotState -> StateView -> RobotState;
  (** [getPathConstraints()]: [None] is the null pointer, otherwise the
      set's [decide(robot_state, verbose)]. *)
  getPathConstraints : option (RobotState -> bool -> ConstraintEvaluationResult.t);
  (** [getPlanningScene()->isStateFeasible(robot_state, verbose)] *)
  isStateFeasible : RobotState -> bool -> bool;
  (** [getPlanningScene()->checkCollision(req, res, robot_state)]: what it
      leaves in [res]. *)
  checkCollision : CollisionRequest.t -> RobotState -> CollisionResult.t;
  (** [robot_state->copyJointGroupPositions(getJointModelGroup(), v)] *)
  copyJointGroupPositions : RobotState -> list double
}.

Arguments satisfiesBounds {RobotState}.
Arguments copyToRobotState {RobotState}.
Arguments getPathConstraints {RobotState}.
Arguments isStateFeasible {RobotState}.
Arguments checkCollision {RobotState}.
Arguments copyJointGroupPositions {RobotState}.

(** Collaborator calls, as a mock would count them. *)
Inductive Event :=
| EvSatisfiesBounds (p : loc)
| EvCopyToRobotState (p : loc)
| EvDecide (verbose : bool)
| EvIsStateFeasible (verbose : bool)
| EvCheckCollision (req : CollisionRequest.t).

Inductive LogLevel := DEBUG | INFO.

(** ** The world a call runs in *)
Record World (RobotState : Type) := mkWorld {
  (** the planner's states *)
  heap : gmap loc Object;
  (** the scratch buffer behind [tss_.getStateStorage()] *)
  tss_ : RobotState;
  (** The object [res] that lines 117 and 134 of [isValid] name outside the
      block in which a local [res] is declared.  Its declaration is not in
      the sources; only its [collision] flag is ever touched. *)
  res : CollisionResult.t;
  (** collaborator calls so far, oldest first *)
  trace : list Event;
  (** log lines so far, oldest first *)
  logged : list (LogLevel * string)
}.

Arguments mkWorld {RobotState}.
Arguments heap {RobotState}.
Arguments tss_ {RobotState}.
Arguments res {RobotState}.
Arguments trace {RobotState}.
Arguments logged {RobotState}.

(** ** A state monad with abnormal termination

    [None] stands for a run that does not return: a failed [assert], or a
    pointer that is not what the code casts it to. *)
Definition M (S A : Type) : Type := S -> option (A * S).

Definition ret {S A : Type} (a : A) : M S A := fun s => Some (a, s).

Definition bind {S A B : Type} (m : M S A) (k : A -> M S B) : M S B :=
  fun s => match m s with
           | Some (a, s') => k a s'
           | None => None
           end.

Definition abort {S A : Type} : M S A := fun _ => None.

Notation "'let*' x ':=' c 'in' k" := (bind c (fun x => k))
  (at level 10, x name, c at level 100, k at level 200).

(** ** The checker object *)
Record Checker := mkChecker {
  group_name_ : string;
  verbose_ : bool;
  collision_request_simple_ : CollisionRequest.t;
  collision_request_with_distance_ : CollisionRequest.t;
  collision_request_with_cost_ : CollisionRequest.t;
  collision_request_simple_verbose_ : CollisionRequest.t;
  collision_request_with_distance_verbose_ : CollisionRequest.t
}.

Section Primitives.
Context {RobotState : Type}.
Variable env : Collaborators RobotState.

Abbreviation W := (World RobotState).

(** [assert(state != nullptr)] *)
Definition assert_nonnull (state : ptr) : M W loc :=
  match state with
  | Some p => ret p
  | None => abort
  end.

(** [state->as<ModelBasedStateSpace::StateType>()] *)
Definition as_StateType (p : loc) : M W StateType.t :=
  fun w => match heap w !! p with
           | Some (ModelBasedState st) => Some (st, w)
           | _ => None
           end.

(** [wrapped_state->as<ompl::base::ConstrainedStateSpace::StateType>()->getState()] *)
Definition as_Constrained_getState (p : loc) : M W loc :=
  fun w => match heap w !! p with
           | Some (ConstrainedState q) => Some (q, w)
           | _ => None
           end.

(** The coordinates a collaborator reads through a state pointer. *)
Definition view (h : gmap loc Object) (p : loc) : option StateView :=
  match h !! p with
  | Some (ModelBasedState st) => Some (AmbientView (StateType.values st))
  | Some (ConstrainedState q) =>
      match h !! q with
      | Some (ModelBasedState st) => Some (WrappedView (StateType.values st))
      | _ => None
      end
  | None => None
  end.

Definition get_view (p : loc) : M W StateView :=
  fun w => match view (heap w) p with
           | Some v => Some (v, w)
           | None => None
           end.

Definition emit (ev : Event) : M W unit :=
  fun w => Some (tt, mkWorld (heap w) (tss_ w) (res w) (trace w ++ [ev]) (logged w)).

Definition log (lvl : LogLevel) (msg : string) : M W unit :=
  fun w => Some (tt, mkWorld (heap w) (tss_ w) (res w) (trace w) (logged w ++ [(lvl, msg)])).

(** [const_cast<ob::State*>(state)->as<StateType>()-> f ()] *)
Definition update_state (f : StateType.t -> StateType.t) (p : loc) : M W unit :=
  fun w => match heap w !! p with
           | Some (ModelBasedState st) =>
               Some (tt, mkWorld (<[p := ModelBasedState (f st)]> (heap w))
                                 (tss_ w) (res w) (trace w) (logged w))
           | _ => None
           end.

Definition markValid : loc -> M W unit := update_state StateType.markValid.
Definition markInvalid : loc -> M W unit := update_state StateType.markInvalid.
Definition markInvalid_d (d : double) : loc -> M W unit :=
  update_state (StateType.markInvalid_d d).

(** [si_->satisfiesBounds(p)] *)
Definition call_satisfiesBounds (p : loc) : M W bool :=
  let* v := get_view p in
  let* _ := emit (EvSatisfiesBounds p) in
  ret (satisfiesBounds env v).

(** [robot_state = tss_.getStateStorage(); copyToRobotState( *robot_state, p)] *)
Definition call_copyToRobotState (p : loc) : M W unit :=
  let* v := get_view p in
  let* _ := emit (EvCopyToRobotState p) in
  fun w => Some (tt, mkWorld (heap w) (copyToRobotState env (tss_ w) v)
                             (res w) (trace w) (logged w)).

(** [kset->decide( *robot_state, verbose)] *)
Definition call_decide (kset : RobotState -> bool -> ConstraintEvaluationResult.t)
    (verbose : bool) : M W ConstraintEvaluationResult.t :=
  let* _ := emit (EvDecide verbose) in
  fun w => Some (kset (tss_ w) verbose, w).

(** [getPlanningScene()->isStateFeasible( *robot_state, verbose)] *)
Definition call_isStateFeasible (verbose : bool) : M W bool :=
  let* _ := emit (EvIsStateFeasible verbose) in
  fun w => Some (isStateFeasible env (tss_ w) verbose, w).

(** [getPlanningScene()->checkCollision(req, res, *robot_state)] into a
    fresh local result. *)
Definition call_checkCollision (req : CollisionRequest.t) : M W CollisionResult.t :=
  let* _ := emit (EvCheckCollision req) in
  fun w => Some (checkCollision env req (tss_ w), w).

(** [robot_state->copyJointGroupPositions(getJointModelGroup(), joint_positions)] *)
Definition get_joint_positions : M W (list double) :=
  fun w => Some (copyJointGroupPositions env (tss_ w), w).

(** [res.collision = b] on the outer [res] *)
Definition set_res_collision (b : bool) : M W unit :=
  fun w => Some (tt, mkWorld (heap w) (tss_ w) (CollisionResult.set_collision b (res w))
                             (trace w) (logged w)).

(** [res.collision] of the outer [res] *)
Definition get_res_collision : M W bool :=
  fun w => Some (CollisionResult.collision (res w), w).
End Primitives.

(** ** [StateValidityChecker] *)
Module StateValidityChecker.

(** The constructor: the five request templates of a checker for the
    group [group_name]. *)
Definition new (group_name : string) : Checker :=
  let with_distance := CollisionRequest.set_distance true CollisionRequest.default in
  let with_cost := CollisionRequest.set_cost true CollisionRequest.default in
  let simple := CollisionRequest.set_group_name group_name CollisionRequest.default in
  let with_distance := CollisionRequest.set_group_name group_name with_distance in
  let with_cost := CollisionRequest.set_group_name group_name with_cost in
  mkChecker group_name false
    simple with_distance with_cost
    (CollisionRequest.set_verbose true simple)
    (CollisionRequest.set_verbose true with_distance).

Definition setVerbose (flag : bool) (chk : Checker) : Checker :=
  mkChecker (group_name_ chk) flag
    (collision_request_simple_ chk)
    (collision_request_with_distance_ chk)
    (collision_request_with_cost_ chk)
    (collision_request_simple_verbose_ chk)
    (collision_request_with_distance_verbose_ chk).

Section Methods.
Context {RobotState : Type}.
Variable env : Collaborators RobotState.
Variable chk : Checker.

Abbreviation W := (World RobotState).

(** [bool isValid(const State* state, bool verbose) const] *)
Definition isValid (state : ptr) (verbose : bool) : M W bool :=
  let* p := assert_nonnull state in
  let* st := as_StateType p in
  (* Use cached validity if it is available *)
  if StateType.isValidityKnown st then ret (StateType.isMarkedValid st)
  else
  let* in_bounds := call_satisfiesBounds env p in
  if negb in_bounds then
    let* _ := (if verbose then log INFO "State outside bounds" else ret tt) in
    let* _ := markInvalid p in
    ret false
  else
  let* _ := call_copyToRobotState env p in
  (* check path constraints *)
  let* violated :=
    match getPathConstraints env with
    | Some kset =>
        let* cer := call_decide kset verbose in
        ret (negb (ConstraintEvaluationResult.satisfied cer))
    | None => ret false
    end in
  if violated then
    let* _ := markInvalid p in
    ret false
  else
  (* check feasibility *)
  let* feasible := call_isStateFeasible env verbose in
  if negb feasible then
    let* _ := markInvalid p in
    ret false
  else
  let* joint_positions := get_joint_positions env in
  (* set collision as true by default: this is the outer [res] *)
  let* _ := set_res_collision true in
  let* _ :=
    if negb (hasNaN joint_positions) then
      (* check collision avoidance, into a [res] local to this block *)
      let* res_local :=
        call_checkCollision env
          (if verbose then collision_request_simple_verbose_ chk
           else collision_request_simple_ chk) in
      if negb (CollisionResult.collision res_local) then markValid p
      else markInvalid p
    else ret tt in
  (* the block is closed: [res] is the outer object again *)
  let* c := get_res_collision in
  ret (negb c).

(** [bool isValid(const State* state, double& dist, bool verbose) const];
    [dist] is what the caller's variable holds on entry, the second
    component of the result is what it holds on return. *)
Definition isValid_dist (state : ptr) (dist : double) (verbose : bool)
    : M W (bool * double) :=
  let* p := assert_nonnull state in
  let* st := as_StateType p in
  (* Use cached validity and distance if they are available *)
  if StateType.isValidityKnown st && StateType.isGoalDistanceKnown st then
    ret (StateType.isMarkedValid st, StateType.distance st)
  else
  let* in_bounds := call_satisfiesBounds env p in
  if negb in_bounds then
    let* _ := (if verbose then log INFO "State outside bounds" else ret tt) in
    let* _ := markInvalid_d Double.zero p in
    ret (false, dist)
  else
  let* _ := call_copyToRobotState env p in
  let after_constraints : M W (bool * double) :=
    (* check feasibility *)
    let* feasible := call_isStateFeasible env verbose in
    if negb feasible then ret (false, Double.zero)
    else
    (* check collision avoidance *)
    let* res_local :=
      call_checkCollision env
        (if verbose then collision_request_with_distance_verbose_ chk
         else collision_request_with_distance_ chk) in
    ret (negb (CollisionResult.collision res_local),
         CollisionResult.distance res_local) in
  (* check path constraints *)
  match getPathConstraints env with
  | Some kset =>
      let* cer := call_decide kset verbose in
      if negb (ConstraintEvaluationResult.satisfied cer) then
        let dist := ConstraintEvaluationResult.distance cer in
        let* _ := markInvalid_d dist p in
        ret (false, dist)
      else after_constraints
  | None => after_constraints
  end.

(** The accumulation loop of [cost]. *)
Definition accumulate_cost (sources : list CostSource.t) (cost0 : double) : double :=
  fold_left
    (fun cost cost_source =>
       Double.add cost
         (Double.mul (CostSource.cost cost_source) (CostSource.getVolume cost_source)))
    sources cost0.

(** [double cost(const State* state) const] *)
Definition cost (state : ptr) : M W double :=
  let* p := assert_nonnull state in
  let* _ := call_copyToRobotState env p in
  let* res_local := call_checkCollision env (collision_request_with_cost_ chk) in
  ret (accumulate_cost (CollisionResult.cost_sources res_local) Double.zero).

(** [double clearance(const State* state) const] *)
Definition clearance (state : ptr) : M W double :=
  let* p := assert_nonnull state in
  let* _ := call_copyToRobotState env p in
  let* res_local := call_checkCollision env (collision_request_with_distance_ chk) in
  ret (if CollisionResult.collision res_local then Double.zero
       else if Double.ltb (CollisionResult.distance res_local) Double.zero
            then Double.infinity
            else CollisionResult.distance res_local).

(** Modelled from the spec: the overloads without a [verbose] argument
    are defined in the class declaration, which is not part of the
    sources.  Section 6 of the specification: [setVerbose] sets the
    default verbosity of the calls that do not pass an explicit flag. *)
Definition isValid_default (state : ptr) : M W bool :=
  isValid state (verbose_ chk).

(** Modelled from the spec: as [isValid_default], for the overload with
    a distance. *)
Definition isValid_dist_default (state : ptr) (dist : double) : M W (bool * double) :=
  isValid_dist state dist (verbose_ chk).
End Methods.
End StateValidityChecker.

(** ** [ConstrainedPlanningStateValidityChecker]

    A subclass of [StateValidityChecker]: same fields, [cost] and
    [clearance] inherited, both [isValid] overloads overridden. *)
Module ConstrainedPlanningStateValidityChecker.
Section Methods.
Context {RobotState : Type}.
Variable env : Collaborators RobotState.
Variable chk : Checker.

Abbreviation W := (World RobotState).

(** [bool isValid(const State* wrapped_state, bool verbose) const] *)
Definition isValid (wrapped_state : ptr) (verbose : bool) : M W bool :=
  let* wp := assert_nonnull wrapped_state in
  (* Unwrap the state from a ConstrainedStateSpace::StateType *)
  let* state := as_Constrained_getState wp in
  let* st := as_StateType state in
  (* Use cached validity if it is available *)
  if StateType.isValidityKnown st then ret (StateType.isMarkedValid st)
  else
  (* do not use the unwrapped state here *)
  let* in_bounds := call_satisfiesBounds env wp in
  if negb in_bounds then
    let* _ := log DEBUG "State outside bounds" in
    let* _ := markInvalid state in
    ret false
  else
  (* do not use the unwrapped state here *)
  let* _ := call_copyToRobotState env wp in
  (* check path constraints *)
  let* violated :=
    match getPathConstraints env with
    | Some kset =>
        let* cer := call_decide kset verbose in
        ret (negb (ConstraintEvaluationResult.satisfied cer))
    | None => ret false
    end in
  if violated then
    let* _ := markInvalid state in
    ret false
  else
  (* check feasibility *)
  let* feasible := call_isStateFeasible env verbose in
  if negb feasible then
    let* _ := markInvalid state in
    ret false
  else
  (* check collision avoidance *)
  let* res_local :=
    call_checkCollision env
      (if verbose then collision_request_simple_verbose_ chk
       else collision_request_simple_ chk) in
  let* _ :=
    if negb (CollisionResult.collision res_local) then markValid state
    else markInvalid state in
  ret (negb (CollisionResult.collision res_local)).

(** [bool isValid(const State* wrapped_state, double& dist, bool verbose) const] *)
Definition isValid_dist (wrapped_state : ptr) (dist : double) (verbose : bool)
    : M W (bool * double) :=
  let* wp := assert_nonnull wrapped_state in
  (* Unwrap the state from a ConstrainedStateSpace::StateType *)
  let* state := as_Constrained_getState wp in
  let* st := as_StateType state in
  (* Use cached validity and distance if they are available *)
  if StateType.isValidityKnown st && StateType.isGoalDistanceKnown st then
    ret (StateType.isMarkedValid st, StateType.distance st)
  else
  (* do not use the unwrapped state here *)
  let* in_bounds := call_satisfiesBounds env wp in
  if negb in_bounds then
    let* _ := log DEBUG "State outside bounds" in
    let* _ := markInvalid_d Double.zero state in
    ret (false, dist)
  else
  (* do not use the unwrapped state here *)
  let* _ := call_copyToRobotState env wp in
  (* check path constraints *)
  let* violated :=
    match getPathConstraints env with
    | Some kset =>
        let* cer := call_decide kset verbose in
        ret (negb (ConstraintEvaluationResult.satisfied cer))
    | None => ret false
    end in
  if violated then
    let* _ := markInvalid state in
    ret (false, dist)
  else
  (* check feasibility *)
  let* feasible := call_isStateFeasible env verbose in
  if negb feasible then ret (false, Double.zero)
  else
  (* check collision avoidance *)
  let* res_local :=
    call_checkCollision env
      (if verbose then collision_request_with_distance_verbose_ chk
       else collision_request_with_distance_ chk) in
  ret (negb (CollisionResult.collision res_local),
       CollisionResult.distance res_local).

(** Modelled from the spec: the overloads without a [verbose] argument,
    see [StateValidityChecker.isValid_default]. *)
Definition isValid_default (wrapped_state : ptr) : M W bool :=
  isValid wrapped_state (verbose_ chk).
End Methods.
End ConstrainedPlanningStateValidityChecker.

(** ** Dynamic dispatch

    [isValid] is virtual: which body runs depends on the checker object. *)
Inductive CheckerVariant := Basic | Constrained.

Section Dispatch.
Context {RobotState : Type}.
Variable env : Collaborators RobotState.
Variable chk : Checker.

Definition isValid (variant : CheckerVariant)
    : ptr -> bool -> M (World RobotState) bool :=
  match variant with
  | Basic => StateValidityChecker.isValid env chk
  | Constrained => ConstrainedPlanningStateValidityChecker.isValid env chk
  end.

Definition isValid_dist (variant : CheckerVariant)
    : ptr -> double -> bool -> M (World RobotState) (bool * double) :=
  match variant with
  | Basic => StateValidityChecker.isValid_dist env chk
  | Constrained => ConstrainedPlanningStateValidityChecker.isValid_dist env chk
  end.
End Dispatch.

(** The ambient state a call on [state] works on (its address and content),
    and what the bounds and translation collaborators see of the pointer
    they are handed: the state itself for the basic checker, the wrapper
    for the constrained one. *)
Definition target (variant : CheckerVariant) (h : gmap loc Object) (state : loc)
    : option (loc * StateType.t * StateView) :=
  match variant, h !! state with
  | Basic, Some (ModelBasedState st) =>
      Some (state, st, AmbientView (StateType.values st))
  | Constrained, Some (ConstrainedState q) =>
      match h !! q with
      | Some (ModelBasedState st) => Some (q, st, WrappedView (StateType.values st))
      | _ => None
      end
  | _, _ => None
  end.

(** The collaborator calls a run added to the trace. *)
Definition new_events {RobotState : Type} (w w' : World RobotState) : list Event :=
  drop (length (trace w)) (trace w').

Definition is_collision_query (e : Event) : bool :=
  match e with EvCheckCollision _ => true | _ => false end.

(** Whether the constraint gate lets the configuration [rs] pass. *)
Definition constraints_satisfied {RobotState : Type} (env : Collaborators RobotState)
    (rs : RobotState) (verbose : bool) : bool :=
  match getPathConstraints env with
  | Some kset => ConstraintEvaluationResult.satisfied (kset rs verbose)
  | None => true
  end.

(** The calls of the constraint gate: one [decide] when a set is attached. *)
Definition decide_events {RobotState : Type} (env : Collaborators RobotState)
    (verbose : bool) : list Event :=
  match getPathConstraints env with
  | Some _ => [EvDecide verbose]
  | None => []
  end.

(** The sum of a sequence of doubles, taken from left to right from [0.0]. *)
Fixpoint sum_from (acc : double) (xs : list double) : double :=
  match xs with
  | [] => acc
  | x :: xs' => sum_from (Double.add acc x) xs'
  end.

Definition weighted_volume_sum (sources : list CostSource.t) : double :=
  sum_from Double.zero
    (map (fun s => Double.mul (CostSource.cost s) (CostSource.getVolume s)) sources).

Definition is_bounds_query (e : Event) : bool :=
  match e with EvSatisfiesBounds _ => true | _ => false end.

(** Replacing the cache block of a state, and of the state at an address
    of a world. *)
Definition recache (c : bool * bool * bool * double) (o : Object) : Object :=
  match o with
  | ModelBasedState st => ModelBasedState (StateType.with_cache c st)
  | ConstrainedState q => ConstrainedState q
  end.

Definition set_cache {RobotState : Type} (q : loc) (c : bool * bool * bool * double)
    (w : World RobotState) : World RobotState :=
  mkWorld (alter (recache c) q (heap w)) (tss_ w) (res w) (trace w) (logged w).

(** ** A small scene for examples

    Three joints.  No joint may lie outside [-4, 4]; the path constraint
    wants joint 0 non-negative and reports joint 0 as its signed distance;
    a state is feasible when joint 1 is non-negative; it collides when
    joint 2 is negative, and joint 2 is the reported distance. *)
Module Scene.
Definition d (z : Z) : double := Double.of_Z z.

(** Out of range only when provably so, as [RealVectorBounds] checks it:
    a NaN coordinate passes. *)
Definition within_limits (x : double) : bool :=
  negb (Double.ltb (d 4) x || Double.ltb x (d (-4))).

Definition coords (v : StateView) : list double :=
  match v with AmbientView vs | WrappedView vs => vs end.

Definition joint (i : nat) (rs : list double) : double := nth i rs Double.zero.

Definition scene : Collaborators (list double) := {|
  satisfiesBounds v := forallb within_limits (coords v);
  copyToRobotState _ v := coords v;
  getPathConstraints :=
    Some (fun rs _ =>
            ConstraintEvaluationResult.mk (Double.leb Double.zero (joint 0 rs)) (joint 0 rs));
  isStateFeasible rs _ := Double.leb Double.zero (joint 1 rs);
  checkCollision req rs :=
    CollisionResult.mk (Double.ltb (joint 2 rs) Double.zero) (joint 2 rs)
      (if CollisionRequest.cost req
       then [CostSource.mk (d 2) (d 3); CostSource.mk (d 1) (d 4)]
       else []);
  copyJointGroupPositions rs := rs
|}.

Definition chk : Checker := StateValidityChecker.new "arm".

(** A state nobody has evaluated yet. *)
Definition fresh (vs : list double) : StateType.t :=
  StateType.mk vs false false false Double.zero.

(** An ambient state at address 1 and its wrapper at address 2. *)
Definition world_of (st : StateType.t) : World (list double) :=
  mkWorld (<[1%positive := ModelBasedState st]>
             (<[2%positive := ConstrainedState 1%positive]> ∅))
          [] (CollisionResult.mk false Double.zero []) [] [].

Definition s : ptr := Some 1%positive.
Definition w : ptr := Some 2%positive.

(** Within limits, constraint satisfied, feasible, collision-free. *)
Definition free_state : StateType.t := fresh [d 1; d 1; d 1].
(** As [free_state], but joint 2 is NaN. *)
Definition nan_state : StateType.t := fresh [d 1; d 1; Double.nan].
(** Joint 0 is outside the limits. *)
Definition outside_state : StateType.t := fresh [d 9; d 1; d 1].
(** Outside the limits, with a cached positive verdict and distance. *)
Definition cached_outside_state : StateType.t :=
  StateType.mk [d 9; d 1; d 1] true true true (d 5).
(** Joint 1 is negative: infeasible. *)
Definition infeasible_state : StateType.t := fresh [d 1; d (-1); d 1].
(** Joint 0 is negative: the path constraint fails, at distance -1. *)
Definition violating_state : StateType.t := fresh [d (-1); d 1; d 1].
End Scene.

(** ** Vocabulary for the properties of a whole run *)

(** The collaborator calls of a run that passes every gate, in the order
    of the code; [query] is the collision request of the overload. *)
Definition gate_chain {RobotState : Type} (env : Collaborators RobotState)
    (state : loc) (verbose : bool) (query : CollisionRequest.t) : list Event :=
  [EvSatisfiesBounds state; EvCopyToRobotState state]
  ++ decide_events env verbose
  ++ [EvIsStateFeasible verbose; EvCheckCollision query].

(** [st'] is [st] after one of the three mark operations. *)
Definition is_mark (st st' : StateType.t) : Prop :=
  st' = StateType.markValid st
  \/ st' = StateType.markInvalid st
  \/ exists d, st' = StateType.markInvalid_d d st.

(** The invariant of a cache block: a known distance comes with a known
    validity. *)
Definition coherent (o : Object) : bool :=
  match o with
  | ModelBasedState st =>
      implb (StateType.distance_known st) (StateType.validity_known st)
  | ConstrainedState _ => true
  end.

Definition heap_coherent (h : gmap loc Object) : Prop :=
  map_Forall (fun _ o => coherent o = true) h.

(** The line both checkers log at a bounds failure. *)
Definition bounds_log (variant : CheckerVariant) (verbose : bool)
    : list (LogLevel * string) :=
  match variant with
  | Basic => if verbose then [(INFO, "State outside bounds"%string)] else []
  | Constrained => [(DEBUG, "State outside bounds"%string)]
  end.

(** ** [ClearOctomapService] (clear_octomap_service_capability.cpp) *)
Module ClearOctomapService.

Inductive Severity := ERROR | INFO.

Section Capability.
(** The planning scene monitor, and what its [clearOctomap()] does to it. *)
Context {Monitor : Type}.
Variable monitor_clearOctomap : Monitor -> Monitor.

(** What the capability reaches through [context_]: the monitor pointer
    ([None] is the null pointer) and the log. *)
Record Context := mkContext {
  planning_scene_monitor_ : option Monitor;
  logged : list (Severity * string)
}.

(** How a call ends: it returns, or it dereferences a null pointer. *)
Inductive Outcome :=
| Returned (c : Context)
| NullDereference (c : Context).

Definition log (lvl : Severity) (msg : string) (c : Context) : Context :=
  mkContext (planning_scene_monitor_ c) (logged c ++ [(lvl, msg)]).

(** [void clearOctomap(req, res)]; the request and the response are empty
    and unnamed. *)
Definition clearOctomap (c : Context) : Outcome :=
  let c :=
    match planning_scene_monitor_ c with
    | None =>
        log ERROR "Cannot clear octomap since planning_scene_monitor_ does not exist." c
    | Some _ => c
    end in
  let c := log INFO "Clearing octomap..." c in
  match planning_scene_monitor_ c with
  | None => NullDereference c
  | Some m =>
      let c := mkContext (Some (monitor_clearOctomap m)) (logged c) in
      Returned (log INFO "Octomap cleared." c)
  end.

(** [initialize] registers [clearOctomap] as the handler of the service:
    [n] requests served one after another, up to the first that does not
    return. *)
Fixpoint serve (n : nat) (c : Context) : Outcome :=
  match n with
  | O => Returned c
  | S n' =>
      match clearOctomap c with
      | Returned c' => serve n' c'
      | NullDereference c' => NullDereference c'
      end
  end.
End Capability.

Arguments planning_scene_monitor_ {Monitor}.
Arguments logged {Monitor}.
Arguments mkContext {Monitor}.
Arguments Returned {Monitor}.
Arguments NullDereference {Monitor}.
End ClearOctomapService.

(** * Properties *)

(** ** Running the code symbolically *)

Lemma new_events_app {RobotState : Type} (w w' : World RobotState) (evs : list Event) :
  trace w' = trace w ++ evs -> new_events w w' = evs.
Proof. intros E. unfold new_events. rewrite E. apply drop_app_length. Qed.

Lemma new_events_none {RobotState : Type} (w : World RobotState) : new_events w w = [].
Proof. unfold new_events. apply drop_all. Qed.

Lemma target_basic (h : gmap loc Object) (state p : loc) (st : StateType.t) (v : StateView) :
  target Basic h state = Some (p, st, v) ->
  p = state /\ h !! state = Some (ModelBasedState st) /\ v = AmbientView (StateType.values st).
Proof.
  unfold target. destruct (h !! state) as [[st'|q]|]; intros E; inversion E; subst; auto.
Qed.

Lemma target_constrained (h : gmap loc Object) (state p : loc) (st : StateType.t) (v : StateView) :
  target Constrained h state = Some (p, st, v) ->
  h !! state = Some (ConstrainedState p) /\ h !! p = Some (ModelBasedState st)
  /\ v = WrappedView (StateType.values st).
Proof.
  unfold target. destruct (h !! state) as [[st'|q]|]; try discriminate.
  destruct (h !! q) as [[st'|q']|] eqn:Eq; intros E; inversion E; subst; auto.
Qed.

(** Unfolds a method down to matches on the heap and on the answers of the
    collaborators. *)
Ltac unfold_method :=
  unfold isValid, isValid_dist,
    StateValidityChecker.isValid, StateValidityChecker.isValid_dist,
    StateValidityChecker.isValid_default, StateValidityChecker.isValid_dist_default,
    ConstrainedPlanningStateValidityChecker.isValid,
    ConstrainedPlanningStateValidityChecker.isValid_dist,
    ConstrainedPlanningStateValidityChecker.isValid_default,
    call_satisfiesBounds, call_copyToRobotState, call_decide, call_isStateFeasible,
    call_checkCollision, get_joint_positions, set_res_collision, get_res_collision,
    markValid, markInvalid, markInvalid_d, update_state, emit, log, get_view, view,
    as_StateType, as_Constrained_getState, assert_nonnull, bind, ret, abort,
    StateType.isValidityKnown, StateType.isMarkedValid, StateType.isGoalDistanceKnown;
  cbn [heap tss_ res trace logged].

(** As [unfold_method] for [cost] and [clearance], which look at the state
    only through [view]. *)
Ltac unfold_query :=
  unfold StateValidityChecker.cost, StateValidityChecker.clearance,
    call_copyToRobotState, call_checkCollision, get_view, emit, assert_nonnull, bind, ret;
  cbn [heap tss_ res trace logged].

(** Splits a [target] hypothesis into what it says about the heap. *)
Ltac use_target H :=
  match type of H with
  | target Basic _ _ = Some _ =>
      apply target_basic in H; destruct H as (-> & ? & ->)
  | target Constrained _ _ = Some _ =>
      apply target_constrained in H; destruct H as (? & ? & ->)
  end.

(** Rewrites with what is known of the heap and of the collaborators. *)
Ltac known :=
  repeat first
    [ progress cbn [heap tss_ res trace logged negb andb orb fst snd
                    ConstraintEvaluationResult.satisfied
                    ConstraintEvaluationResult.distance
                    CollisionResult.collision CollisionResult.set_collision]
    | match goal with
      | E : heap _ !! _ = Some _ |- _ => rewrite E
      | E : satisfiesBounds _ _ = _ |- _ => rewrite E
      | E : getPathConstraints _ = _ |- _ => rewrite E
      | E : isStateFeasible _ _ _ = _ |- _ => rewrite E
      | E : hasNaN _ = _ |- _ => rewrite E
      | E : StateType.validity_known _ = _ |- _ => rewrite E
      | E : StateType.distance_known _ = _ |- _ => rewrite E
      | E : CollisionResult.collision _ = _ |- _ => rewrite E
      | E : ConstraintEvaluationResult.satisfied _ = _ |- _ => rewrite E
      end ].

(** Follows every path of a run [H : ... = Some (r, W')]. *)
Ltac paths H :=
  repeat first
    [ progress cbn [heap tss_ res trace logged negb andb orb fst snd
                    CollisionResult.collision CollisionResult.set_collision] in H
    | discriminate H
    | match type of H with
      | context [heap ?w !! ?p] => destruct (heap w !! p) as [[?|?]|] eqn:?
      | context [getPathConstraints ?e] => destruct (getPathConstraints e) as [?|] eqn:?
      | context [if ?b then _ else _] => destruct b eqn:?
      end ].

(** Closes [new_events w w' = evs] for a world [w'] written out in full. *)
Ltac events :=
  apply new_events_app; cbn [trace]; rewrite <- ?app_assoc; reflexivity.

(** Whatever path a boolean [isValid] takes, a collision query it issues
    uses the template its [verbose] argument selects. *)
Lemma isValid_collision_template {RobotState : Type}
    (env : Collaborators RobotState) (chk : Checker) (variant : CheckerVariant)
    (state : ptr) (verbose : bool) (W W' : World RobotState) (r : bool) :
  isValid env chk variant state verbose W = Some (r, W') ->
  forall req, In (EvCheckCollision req) (new_events W W') ->
    req = if verbose then collision_request_simple_verbose_ chk
          else collision_request_simple_ chk.
Proof.
  destruct state as [p|]; [|destruct variant; discriminate].
  destruct variant; unfold_method; intros H req Hin; paths H;
    injection H as Hr HW; subst r W';
    unfold new_events in Hin; cbn [trace] in Hin;
    rewrite <- ?app_assoc in Hin;
    rewrite ?drop_app_length, ?drop_all in Hin;
    cbn in Hin; intuition congruence.
Qed.

(** Once the cache has missed and the bounds gate has passed, the basic
    checker's boolean [isValid] returns, and it has asked for the bounds
    and translated the state. *)
Lemma isValid_runs_chain {RobotState : Type}
    (env : Collaborators RobotState) (chk : Checker)
    (state : loc) (st : StateType.t) (verbose : bool) (W : World RobotState) :
  heap W !! state = Some (ModelBasedState st) ->
  StateType.validity_known st = false ->
  satisfiesBounds env (AmbientView (StateType.values st)) = true ->
  exists r W' rest,
    StateValidityChecker.isValid env chk (Some state) verbose W = Some (r, W')
    /\ new_events W W' = EvSatisfiesBounds state :: EvCopyToRobotState state :: rest.
Proof.
  intros Hp Hk Hb. unfold_method. known.
  destruct (getPathConstraints env) as [kset|]; known;
    [ destruct (ConstraintEvaluationResult.satisfied _) eqn:Hs; known |];
    try (destruct (isStateFeasible env _ verbose) eqn:Hf; known;
         [ destruct (hasNaN _) eqn:Hn; known;
           try (destruct (CollisionResult.collision _) eqn:Hc; known) |]);
    (do 3 eexists; split; [reflexivity | events]).
Qed.

(** [x >= 0.0] excludes [x < 0.0]. *)
Lemma leb_zero_not_ltb_zero (x : double) :
  Double.leb Double.zero x = true -> Double.ltb x Double.zero = false.
Proof. destruct x as [[]|[]| |[] m e]; cbn; congruence. Qed.

(** The accumulation loop of [cost] computes a left-to-right sum. *)
Lemma accumulate_cost_sum_from (sources : list CostSource.t) (acc : double) :
  StateValidityChecker.accumulate_cost sources acc
  = sum_from acc
      (map (fun s => Double.mul (CostSource.cost s) (CostSource.getVolume s)) sources).
Proof.
  revert acc. induction sources as [|s sources IH]; intros acc; [reflexivity|].
  cbn. apply IH.
Qed.

(** For two cost sources the sum is [(0.0 + c1*v1) + c2*v2]. *)
Lemma weighted_volume_sum_two (c1 v1 c2 v2 : double) :
  weighted_volume_sum [CostSource.mk c1 v1; CostSource.mk c2 v2]
  = Double.add (Double.add Double.zero (Double.mul c1 v1)) (Double.mul c2 v2).
Proof. reflexivity. Qed.

Lemma values_with_cache (c : bool * bool * bool * double) (st : StateType.t) :
  StateType.values (StateType.with_cache c st) = StateType.values st.
Proof. destruct c as [[[vk mv] dk] d]. reflexivity. Qed.

Lemma lookup_recache (h : gmap loc Object) (q p : loc) (c : bool * bool * bool * double) :
  alter (recache c) q h !! p
  = if decide (q = p) then recache c <$> h !! p else h !! p.
Proof.
  destruct (decide (q = p)) as [->|Hne].
  - apply lookup_alter_eq.
  - apply lookup_alter_ne, Hne.
Qed.

(** The collaborators see the same state whatever its cache holds. *)
Lemma view_recache (h : gmap loc Object) (q p : loc) (c : bool * bool * bool * double) :
  view (alter (recache c) q h) p = view h p.
Proof.
  unfold view. rewrite lookup_recache.
  destruct (decide (q = p)) as [->|Hne].
  - destruct (h !! p) as [[st|r]|] eqn:Hp; cbn; rewrite ?values_with_cache; try reflexivity.
    rewrite lookup_recache. destruct (decide (p = r)) as [->|Hne]; [|reflexivity].
    rewrite Hp. reflexivity.
  - destruct (h !! p) as [[st|r]|] eqn:Hp; try reflexivity.
    rewrite lookup_recache. destruct (decide (q = r)) as [->|Hne']; [|reflexivity].
    destruct (h !! r) as [[st|r']|]; cbn; rewrite ?values_with_cache; reflexivity.
Qed.

Import Scene.

(** ** The two checker variants against each other *)

(** Where the two variants agree.  Let [w] be the wrapper of the ambient
    state [s], and let the bounds and the translation collaborators answer
    for [w] as they do for [s].  Both boolean [isValid] calls return.  The constrained
    checker hands [w], never [s], to the bounds gate and also to the
    configuration translation; only the cache block is reached through the
    unwrapped state.  Whenever the constrained call ends without a
    collision query (cache hit, bounds, constraint or feasibility failure),
    both calls return the same verdict and leave the same heap and scratch
    buffer; whenever the translated configuration has no NaN component,
    both calls leave the same cache block. *)
Theorem constrained_agrees_with_basic_before_collision_gate {RobotState : Type}
    (env : Collaborators RobotState) (chk : Checker)
    (s w : loc) (st : StateType.t) (verbose : bool) (W : World RobotState) :
  let rs := copyToRobotState env (tss_ W) (AmbientView (StateType.values st)) in
  heap W !! w = Some (ConstrainedState s) ->
  heap W !! s = Some (ModelBasedState st) ->
  satisfiesBounds env (WrappedView (StateType.values st))
  = satisfiesBounds env (AmbientView (StateType.values st)) ->
  copyToRobotState env (tss_ W) (WrappedView (StateType.values st)) = rs ->
  exists rc Wc rb Wb,
    ConstrainedPlanningStateValidityChecker.isValid env chk (Some w) verbose W = Some (rc, Wc)
    /\ StateValidityChecker.isValid env chk (Some s) verbose W = Some (rb, Wb)
    /\ (forall q, In (EvSatisfiesBounds q) (new_events W Wc)
                  \/ In (EvCopyToRobotState q) (new_events W Wc) -> q = w)
    /\ (existsb is_collision_query (new_events W Wc) = false ->
        rc = rb /\ heap Wc = heap Wb /\ tss_ Wc = tss_ Wb)
    /\ (hasNaN (copyJointGroupPositions env rs) = false ->
        heap Wc = heap Wb /\ tss_ Wc = tss_ Wb).
Proof.
  intros rs Hw Hs Hb Ht. subst rs.
  unfold_method. known.
  destruct (StateType.validity_known st) eqn:Hk; known;
    [| destruct (satisfiesBounds env (AmbientView _)) eqn:Hin; known;
       [ rewrite Ht;
         destruct (getPathConstraints env) as [kset|] eqn:Hks; known;
         [ destruct (ConstraintEvaluationResult.satisfied (kset _ verbose)) eqn:Hsat; known |];
         try (destruct (isStateFeasible env _ verbose) eqn:Hf; known;
              [ destruct (hasNaN _) eqn:Hn; known;
                destruct (CollisionResult.collision _) eqn:Hc; known |])
       | destruct verbose; known ] ];
    (do 4 eexists; split; [reflexivity|]; split; [reflexivity|];
     erewrite new_events_app
       by (cbn [trace]; rewrite <- ?app_assoc; try reflexivity; symmetry; apply app_nil_r);
     cbn [app In existsb is_collision_query orb heap tss_];
     repeat split; try reflexivity; try discriminate; try congruence;
     intuition congruence).
Qed.

(** The collision-free state of the scene: both checkers leave it marked
    the same way. *)
Lemma constrained_agrees_with_basic_on_free_state :
  heap (world_of free_state) !! 2%positive = Some (ConstrainedState 1%positive)
  /\ heap (world_of free_state) !! 1%positive = Some (ModelBasedState free_state)
  /\ exists rc Wc rb Wb,
       ConstrainedPlanningStateValidityChecker.isValid scene chk w false (world_of free_state)
       = Some (rc, Wc)
       /\ StateValidityChecker.isValid scene chk s false (world_of free_state) = Some (rb, Wb)
       /\ heap Wc = heap Wb.
Proof.
  split; [reflexivity|]. split; [reflexivity|].
  destruct (constrained_agrees_with_basic_before_collision_gate
              scene chk 1%positive 2%positive free_state false (world_of free_state))
    as (rc & Wc & rb & Wb & Hc & Hb & _ & _ & Hfinite); try reflexivity.
  exists rc, Wc, rb, Wb. split; [exact Hc|]. split; [exact Hb|].
  apply Hfinite. reflexivity.
Defined.

(** A state whose joint 2 is NaN, in bounds, constraint-satisfying and
    feasible, with collaborators that treat the wrapper and the ambient
    state alike: the constrained checker, having
    handed the wrapper (address 2) to bounds and translation, queries the
    collision world and reports valid; the basic checker reports invalid. *)
Lemma nan_state_valid_for_constrained_invalid_for_basic :
  heap (world_of nan_state) !! 2%positive = Some (ConstrainedState 1%positive)
  /\ heap (world_of nan_state) !! 1%positive = Some (ModelBasedState nan_state)
  /\ satisfiesBounds scene (WrappedView (StateType.values nan_state))
     = satisfiesBounds scene (AmbientView (StateType.values nan_state))
  /\ copyToRobotState scene [] (WrappedView (StateType.values nan_state))
     = copyToRobotState scene [] (AmbientView (StateType.values nan_state))
  /\ (exists Wc,
        ConstrainedPlanningStateValidityChecker.isValid scene chk w false (world_of nan_state)
        = Some (true, Wc)
        /\ trace Wc = [EvSatisfiesBounds 2%positive; EvCopyToRobotState 2%positive;
                       EvDecide false; EvIsStateFeasible false;
                       EvCheckCollision (collision_request_simple_ chk)])
  /\ (exists Wb,
        StateValidityChecker.isValid scene chk s false (world_of nan_state)
        = Some (false, Wb)).
Proof.
  split; [reflexivity|]. split; [reflexivity|].
  split; [reflexivity|]. split; [reflexivity|]. split.
  - eexists. vm_compute. split; reflexivity.
  - eexists. vm_compute. reflexivity.
Qed.

(** ** Write-back of verdicts *)

(** The constrained checker's boolean [isValid] always leaves its verdict
    in the cache of the unwrapped state. *)
Lemma constrained_isValid_memoizes {RobotState : Type}
    (env : Collaborators RobotState) (chk : Checker)
    (state p : loc) (st : StateType.t) (v : StateView)
    (verbose : bool) (W W' : World RobotState) (r : bool) :
  target Constrained (heap W) state = Some (p, st, v) ->
  isValid env chk Constrained (Some state) verbose W = Some (r, W') ->
  exists st',
    heap W' !! p = Some (ModelBasedState st')
    /\ StateType.validity_known st' = true
    /\ StateType.marked_valid st' = r.
Proof.
  intros Ht. use_target Ht. unfold_method. known. intros Hrun. paths Hrun;
    simplify_eq; cbn [heap]; rewrite ?lookup_insert_eq; eauto.
Qed.

(** So does the basic checker's, as to the validity being known, unless
    the translated configuration has a NaN component. *)
Lemma basic_isValid_memoizes_without_nan {RobotState : Type}
    (env : Collaborators RobotState) (chk : Checker)
    (state p : loc) (st : StateType.t) (v : StateView)
    (verbose : bool) (W W' : World RobotState) (r : bool) :
  target Basic (heap W) state = Some (p, st, v) ->
  hasNaN (copyJointGroupPositions env (copyToRobotState env (tss_ W) v)) = false ->
  isValid env chk Basic (Some state) verbose W = Some (r, W') ->
  exists st',
    heap W' !! p = Some (ModelBasedState st')
    /\ StateType.validity_known st' = true.
Proof.
  intros Ht Hn. use_target Ht. unfold_method. known. intros Hrun. paths Hrun;
    simplify_eq; cbn [heap]; rewrite ?lookup_insert_eq; eauto;
    match goal with E : negb (hasNaN _) = false |- _ => rewrite Hn in E; discriminate E end.
Qed.

(** At the collision gate the basic checker's boolean [isValid] marks the
    state from the collision query and returns the negation of the flag of
    the outer [res]: the collision-free state of the scene is reported
    invalid by the call that marks it valid, and valid by the next call. *)
Example basic_isValid_first_answer_differs_from_cached :
  exists W1,
    StateValidityChecker.isValid scene chk s false (world_of free_state) = Some (false, W1)
    /\ heap W1 !! 1%positive
       = Some (ModelBasedState (StateType.mk [d 1; d 1; d 1] true true false Double.zero))
    /\ StateValidityChecker.isValid scene chk s false W1 = Some (true, W1).
Proof. eexists. repeat split; vm_compute; reflexivity. Qed.

(** C2 (what the code does instead): in the distance overload of either
    variant, once the cache has missed and the bounds and constraint gates
    have passed, the call returns a terminal verdict - invalid with distance
    [0.0] on infeasibility, otherwise the negated collision flag with the
    reported distance - and leaves the heap, hence the state's cache block,
    exactly as it found it. *)
Theorem isValid_dist_never_caches_feasibility_or_collision {RobotState : Type}
    (env : Collaborators RobotState) (chk : Checker) (variant : CheckerVariant)
    (state p : loc) (st : StateType.t) (v : StateView)
    (verbose : bool) (dist : double) (W : World RobotState) :
  let rs := copyToRobotState env (tss_ W) v in
  let query_d := if verbose then collision_request_with_distance_verbose_ chk
                 else collision_request_with_distance_ chk in
  target variant (heap W) state = Some (p, st, v) ->
  StateType.validity_known st && StateType.distance_known st = false ->
  satisfiesBounds env v = true ->
  constraints_satisfied env rs verbose = true ->
  exists W',
    isValid_dist env chk variant (Some state) dist verbose W
    = Some (if isStateFeasible env rs verbose
            then (negb (CollisionResult.collision (checkCollision env query_d rs)),
                  CollisionResult.distance (checkCollision env query_d rs))
            else (false, Double.zero), W')
    /\ heap W' = heap W.
Proof.
  intros rs query_d Ht Hk Hb Hc. subst rs query_d.
  unfold constraints_satisfied in Hc.
  destruct variant; use_target Ht; unfold_method; known; rewrite Hk; known;
    destruct (getPathConstraints env) as [kset|]; known;
    destruct (isStateFeasible env _ verbose) eqn:Hf; known;
    (eexists; split; reflexivity).
Qed.

(** The infeasible state of the scene: reported invalid at distance [0.0],
    and still not cached. *)
Lemma isValid_dist_leaves_infeasible_state_uncached :
  target Basic (heap (world_of infeasible_state)) 1%positive
  = Some (1%positive, infeasible_state, AmbientView (StateType.values infeasible_state))
  /\ exists W',
       isValid_dist scene chk Basic s (d 7) false (world_of infeasible_state)
       = Some ((false, Double.zero), W')
       /\ heap W' = heap (world_of infeasible_state)
       /\ StateType.validity_known infeasible_state = false.
Proof.
  split; [reflexivity|].
  destruct (isValid_dist_never_caches_feasibility_or_collision
              scene chk Basic 1%positive 1%positive infeasible_state
              (AmbientView (StateType.values infeasible_state)) false (d 7)
              (world_of infeasible_state))
    as (W' & Hrun & Hheap); try reflexivity.
  exists W'. split; [exact Hrun|]. split; [exact Hheap | reflexivity].
Defined.

(** ** Cache hits *)

(** The cache-hit rule: for a state whose cache holds a terminal answer
    ([validity_known],
    and for the distance overload also [distance_known]), [isValid] of
    either variant returns the cached verdict (and the cached distance) and
    the world it was called in, unchanged: no gate was evaluated, no
    collaborator called, nothing written.  Hence two consecutive calls on
    that state return the same results, and the world after the second call
    is still the one before the first. *)
Theorem cached_answer_is_returned_without_gates {RobotState : Type}
    (env : Collaborators RobotState) (chk : Checker) (variant : CheckerVariant)
    (state p : loc) (st : StateType.t) (v : StateView)
    (verbose verbose' : bool) (dist dist' : double) (W : World RobotState) :
  target variant (heap W) state = Some (p, st, v) ->
  StateType.validity_known st = true ->
  isValid env chk variant (Some state) verbose W = Some (StateType.marked_valid st, W)
  /\ (let* r1 := isValid env chk variant (Some state) verbose in
      let* r2 := isValid env chk variant (Some state) verbose' in
      ret (r1, r2)) W
     = Some ((StateType.marked_valid st, StateType.marked_valid st), W)
  /\ (StateType.distance_known st = true ->
      isValid_dist env chk variant (Some state) dist verbose W
      = Some ((StateType.marked_valid st, StateType.distance st), W)
      /\ (let* r1 := isValid_dist env chk variant (Some state) dist verbose in
          let* r2 := isValid_dist env chk variant (Some state) dist' verbose' in
          ret (r1, r2)) W
         = Some ((StateType.marked_valid st, StateType.distance st,
                  (StateType.marked_valid st, StateType.distance st)), W)).
Proof.
  intros Ht Hk.
  assert (Hb : forall vb, isValid env chk variant (Some state) vb W
                          = Some (StateType.marked_valid st, W)).
  { intros vb. destruct variant; use_target Ht; unfold_method; known; reflexivity. }
  assert (Hd : StateType.distance_known st = true ->
               forall d0 vb, isValid_dist env chk variant (Some state) d0 vb W
                          = Some ((StateType.marked_valid st, StateType.distance st), W)).
  { intros Hdk d0 vb. destruct variant; use_target Ht; unfold_method; known; reflexivity. }
  split; [apply Hb|]. split.
  - unfold bind at 1. rewrite Hb. unfold bind at 1. rewrite Hb. reflexivity.
  - intros Hdk. split; [apply Hd, Hdk|].
    unfold bind at 1. rewrite (Hd Hdk). unfold bind at 1. rewrite (Hd Hdk). reflexivity.
Qed.

(** A cached state of the scene, asked through its wrapper. *)
Lemma cached_state_answers_from_cache :
  target Constrained (heap (world_of cached_outside_state)) 2%positive
  = Some (1%positive, cached_outside_state,
          WrappedView (StateType.values cached_outside_state))
  /\ isValid scene chk Constrained w true (world_of cached_outside_state)
     = Some (true, world_of cached_outside_state)
  /\ isValid_dist scene chk Constrained w Double.zero true (world_of cached_outside_state)
     = Some ((true, d 5), world_of cached_outside_state).
Proof.
  split; [reflexivity|].
  destruct (cached_answer_is_returned_without_gates
              scene chk Constrained 2%positive 1%positive cached_outside_state
              (WrappedView (StateType.values cached_outside_state))
              true true Double.zero Double.zero (world_of cached_outside_state))
    as (Hb & _ & Hd); try reflexivity.
  split; [exact Hb|]. apply Hd. reflexivity.
Defined.

(** ** The constraint gate of the distance overloads *)

(** C4 (what the code does): in a distance overload, after a cache miss
    and a passed bounds gate, an attached constraint set that reports
    unsatisfied makes the call return false and mark the state invalid.  The
    basic checker stores the constraint's distance in the cache and returns
    it; the constrained checker marks the state invalid without a distance
    and leaves the caller's [dist] as it was. *)
Theorem constraint_distance_on_failure {RobotState : Type}
    (env : Collaborators RobotState) (chk : Checker) (variant : CheckerVariant)
    (state p : loc) (st : StateType.t) (v : StateView)
    (kset : RobotState -> bool -> ConstraintEvaluationResult.t)
    (verbose : bool) (dist : double) (W : World RobotState) :
  let cer := kset (copyToRobotState env (tss_ W) v) verbose in
  target variant (heap W) state = Some (p, st, v) ->
  StateType.validity_known st && StateType.distance_known st = false ->
  satisfiesBounds env v = true ->
  getPathConstraints env = Some kset ->
  ConstraintEvaluationResult.satisfied cer = false ->
  exists W',
    isValid_dist env chk variant (Some state) dist verbose W
    = Some ((false, match variant with
                    | Basic => ConstraintEvaluationResult.distance cer
                    | Constrained => dist
                    end), W')
    /\ heap W'
       = <[p := ModelBasedState
                  match variant with
                  | Basic =>
                      StateType.markInvalid_d (ConstraintEvaluationResult.distance cer) st
                  | Constrained => StateType.markInvalid st
                  end]> (heap W).
Proof.
  intros cer Ht Hk Hb Hkset Hsat. subst cer.
  destruct variant; use_target Ht; unfold_method; known; rewrite Hk; known;
    (eexists; split; reflexivity).
Qed.

(** The constraint-violating state of the scene, whose constraint distance
    is -1, asked through its wrapper by a caller whose [dist] holds 7: the
    caller still reads 7, and the cache holds no distance. *)
Lemma constrained_isValid_dist_drops_constraint_distance :
  target Constrained (heap (world_of violating_state)) 2%positive
  = Some (1%positive, violating_state, WrappedView (StateType.values violating_state))
  /\ (exists kset,
        getPathConstraints scene = Some kset
        /\ kset (copyToRobotState scene [] (WrappedView (StateType.values violating_state)))
             false
           = ConstraintEvaluationResult.mk false (d (-1)))
  /\ exists W',
       isValid_dist scene chk Constrained w (d 7) false (world_of violating_state)
       = Some ((false, d 7), W')
       /\ heap W' !! 1%positive
          = Some (ModelBasedState (StateType.mk [d (-1); d 1; d 1] true false false Double.zero)).
Proof.
  split; [reflexivity|]. split; [eexists; split; reflexivity|].
  destruct (constraint_distance_on_failure
              scene chk Constrained 2%positive 1%positive violating_state
              (WrappedView (StateType.values violating_state))
              (fun rs _ =>
                 ConstraintEvaluationResult.mk
                   (Double.leb Double.zero (joint 0 rs)) (joint 0 rs))
              false (d 7) (world_of violating_state))
    as (W' & Hrun & Hheap); try reflexivity.
  exists W'. split; [exact Hrun|]. rewrite Hheap. reflexivity.
Defined.

(** ** The NaN guard *)

(** C5 (what the code does): take an uncached, in-bounds,
    constraint-satisfying, feasible state whose translated configuration
    has a NaN component.  The basic checker's boolean [isValid] returns
    false and issues no collision query.  The constrained checker's boolean
    [isValid] and both distance overloads have no such guard: they issue the
    collision query and return the negation of the collision flag it
    reports. *)
Theorem nan_guard_only_in_basic_boolean_isValid {RobotState : Type}
    (env : Collaborators RobotState) (chk : Checker) (variant : CheckerVariant)
    (state p : loc) (st : StateType.t) (v : StateView)
    (verbose : bool) (dist : double) (W : World RobotState) :
  let rs := copyToRobotState env (tss_ W) v in
  let query := if verbose then collision_request_simple_verbose_ chk
               else collision_request_simple_ chk in
  let query_d := if verbose then collision_request_with_distance_verbose_ chk
                 else collision_request_with_distance_ chk in
  target variant (heap W) state = Some (p, st, v) ->
  StateType.validity_known st = false ->
  satisfiesBounds env v = true ->
  constraints_satisfied env rs verbose = true ->
  isStateFeasible env rs verbose = true ->
  hasNaN (copyJointGroupPositions env rs) = true ->
  (exists W',
      isValid env chk variant (Some state) verbose W
      = Some (match variant with
              | Basic => false
              | Constrained => negb (CollisionResult.collision (checkCollision env query rs))
              end, W')
      /\ existsb is_collision_query (new_events W W')
         = match variant with Basic => false | Constrained => true end)
  /\ (exists W',
      isValid_dist env chk variant (Some state) dist verbose W
      = Some ((negb (CollisionResult.collision (checkCollision env query_d rs)),
               CollisionResult.distance (checkCollision env query_d rs)), W')
      /\ existsb is_collision_query (new_events W W') = true).
Proof.
  intros rs query query_d Ht Hk Hb Hc Hf Hn. subst rs query query_d.
  unfold constraints_satisfied in Hc.
  split.
  - destruct variant; use_target Ht; unfold_method; known;
      destruct (getPathConstraints env) as [kset|]; known;
      try (destruct (CollisionResult.collision _) eqn:Hcol; known);
      (eexists; split; [reflexivity|];
       erewrite new_events_app by (cbn [trace]; rewrite <- !app_assoc; reflexivity);
       reflexivity).
  - destruct variant; use_target Ht; unfold_method; known;
      destruct (getPathConstraints env) as [kset|]; known;
        (eexists; split; [reflexivity|];
       erewrite new_events_app by (cbn [trace]; rewrite <- !app_assoc; reflexivity);
       reflexivity).
Qed.

(** The NaN state of the scene, asked through its wrapper: the collision
    world is queried, and the state is reported valid. *)
Lemma constrained_isValid_queries_collision_on_nan :
  target Constrained (heap (world_of nan_state)) 2%positive
  = Some (1%positive, nan_state, WrappedView (StateType.values nan_state))
  /\ hasNaN (copyJointGroupPositions scene
               (copyToRobotState scene [] (WrappedView (StateType.values nan_state))))
     = true
  /\ exists W',
       isValid scene chk Constrained w false (world_of nan_state) = Some (true, W')
       /\ existsb is_collision_query (new_events (world_of nan_state) W') = true.
Proof.
  split; [reflexivity|]. split; [reflexivity|].
  exact (proj1 (nan_guard_only_in_basic_boolean_isValid
                  scene chk Constrained 2%positive 1%positive nan_state
                  (WrappedView (StateType.values nan_state)) false Double.zero
                  (world_of nan_state)
                  eq_refl eq_refl eq_refl eq_refl eq_refl eq_refl)).
Defined.

(** C10 (as amended): in the basic checker's boolean [isValid], on an uncached,
    in-bounds, constraint-satisfying, feasible state whose translated
    configuration has a NaN component, the call returns false after the
    bounds, translation, constraint and feasibility calls and leaves the
    heap as it found it: the cache block is untouched and the validity
    still unknown.  A later call on the same state is therefore no cache
    hit: it returns, having asked for the bounds and translated the state
    again. *)
Theorem nan_rejection_is_not_memoized {RobotState : Type}
    (env : Collaborators RobotState) (chk : Checker)
    (state : loc) (st : StateType.t) (verbose verbose' : bool) (W : World RobotState) :
  let rs := copyToRobotState env (tss_ W) (AmbientView (StateType.values st)) in
  heap W !! state = Some (ModelBasedState st) ->
  StateType.validity_known st = false ->
  satisfiesBounds env (AmbientView (StateType.values st)) = true ->
  constraints_satisfied env rs verbose = true ->
  isStateFeasible env rs verbose = true ->
  hasNaN (copyJointGroupPositions env rs) = true ->
  exists W',
    StateValidityChecker.isValid env chk (Some state) verbose W = Some (false, W')
    /\ heap W' = heap W
    /\ new_events W W'
       = [EvSatisfiesBounds state; EvCopyToRobotState state]
         ++ decide_events env verbose ++ [EvIsStateFeasible verbose]
    /\ exists r W'' rest,
         StateValidityChecker.isValid env chk (Some state) verbose' W' = Some (r, W'')
         /\ new_events W' W'' = EvSatisfiesBounds state :: EvCopyToRobotState state :: rest.
Proof.
  intros rs Hp Hk Hb Hc Hf Hn. subst rs.
  unfold constraints_satisfied, decide_events in *.
  assert (Hrun : exists W',
    StateValidityChecker.isValid env chk (Some state) verbose W = Some (false, W')
    /\ heap W' = heap W
    /\ new_events W W'
       = [EvSatisfiesBounds state; EvCopyToRobotState state]
         ++ match getPathConstraints env with Some _ => [EvDecide verbose] | None => [] end
         ++ [EvIsStateFeasible verbose]).
  { unfold_method. known.
    destruct (getPathConstraints env) as [kset|]; known;
      (eexists; split; [reflexivity|]; split; [reflexivity | events]). }
  destruct Hrun as (W' & Hrun & Hheap & Hev).
  exists W'. repeat split; try assumption.
  apply (isValid_runs_chain env chk state st verbose' W'); try assumption.
  rewrite Hheap. assumption.
Qed.

(** The NaN state of the scene: rejected, and as uncached as before. *)
Lemma basic_isValid_forgets_nan_rejection :
  heap (world_of nan_state) !! 1%positive = Some (ModelBasedState nan_state)
  /\ hasNaN (copyJointGroupPositions scene
               (copyToRobotState scene [] (AmbientView (StateType.values nan_state))))
     = true
  /\ exists W',
       StateValidityChecker.isValid scene chk s false (world_of nan_state) = Some (false, W')
       /\ heap W' = heap (world_of nan_state).
Proof.
  split; [reflexivity|]. split; [reflexivity|].
  destruct (nan_rejection_is_not_memoized
              scene chk 1%positive nan_state false false (world_of nan_state))
    as (W' & Hrun & Hheap & _); try reflexivity.
  exists W'. split; assumption.
Defined.

(** ** Clearance and cost *)

(** C6: [clearance] translates the state, issues one distance-mode
    collision query, and returns [0.0] when the result reports a collision;
    otherwise the reported distance [d] when [d >= 0.0], and [+infinity]
    when [d < 0.0]. *)
Theorem clearance_of_collision_result {RobotState : Type}
    (env : Collaborators RobotState) (chk : Checker)
    (state : loc) (v : StateView) (W : World RobotState) :
  let result := checkCollision env (collision_request_with_distance_ chk)
                  (copyToRobotState env (tss_ W) v) in
  view (heap W) state = Some v ->
  exists c W',
    StateValidityChecker.clearance env chk (Some state) W = Some (c, W')
    /\ new_events W W'
       = [EvCopyToRobotState state; EvCheckCollision (collision_request_with_distance_ chk)]
    /\ (CollisionResult.collision result = true -> c = Double.zero)
    /\ (CollisionResult.collision result = false ->
        Double.leb Double.zero (CollisionResult.distance result) = true ->
        c = CollisionResult.distance result)
    /\ (CollisionResult.collision result = false ->
        Double.ltb (CollisionResult.distance result) Double.zero = true ->
        c = Double.infinity).
Proof.
  intros result Hv. subst result.
  unfold_query. rewrite Hv. cbn [heap tss_ res trace logged].
  do 2 eexists. split; [reflexivity|]. split; [events|].
  repeat split.
  - intros ->. reflexivity.
  - intros -> Hge. rewrite (leb_zero_not_ltb_zero _ Hge). reflexivity.
  - intros -> Hlt. rewrite Hlt. reflexivity.
Qed.

(** The collision-free state of the scene is at distance 1. *)
Lemma clearance_of_free_state :
  view (heap (world_of free_state)) 1%positive
  = Some (AmbientView (StateType.values free_state))
  /\ exists W',
       StateValidityChecker.clearance scene chk s (world_of free_state) = Some (d 1, W').
Proof.
  split; [reflexivity|].
  destruct (clearance_of_collision_result
              scene chk 1%positive (AmbientView (StateType.values free_state))
              (world_of free_state) eq_refl)
    as (c & W' & Hrun & _ & _ & Hd & _).
  pose proof (Hd eq_refl eq_refl) as Hc. subst c.
  exists W'. exact Hrun.
Defined.

(** C7: [cost] translates the state, issues one cost-mode collision query,
    and returns the sum, from [0.0] and in the order reported, of cost
    weight times volume over the cost sources of the result; that is [0.0]
    when there are none.  The heap is left as it was, and whatever cache
    block any state of the heap holds, the call returns the same value and
    leaves that heap as it was. *)
Theorem cost_is_weighted_volume_sum {RobotState : Type}
    (env : Collaborators RobotState) (chk : Checker)
    (state : loc) (v : StateView) (W : World RobotState) :
  let result := checkCollision env (collision_request_with_cost_ chk)
                  (copyToRobotState env (tss_ W) v) in
  view (heap W) state = Some v ->
  exists W',
    StateValidityChecker.cost env chk (Some state) W
    = Some (weighted_volume_sum (CollisionResult.cost_sources result), W')
    /\ (CollisionResult.cost_sources result = [] ->
        weighted_volume_sum (CollisionResult.cost_sources result) = Double.zero)
    /\ new_events W W'
       = [EvCopyToRobotState state; EvCheckCollision (collision_request_with_cost_ chk)]
    /\ heap W' = heap W
    /\ forall (q : loc) (c : bool * bool * bool * double),
         exists W'',
           StateValidityChecker.cost env chk (Some state) (set_cache q c W)
           = Some (weighted_volume_sum (CollisionResult.cost_sources result), W'')
           /\ heap W'' = heap (set_cache q c W).
Proof.
  intros result Hv. subst result.
  assert (Hrun : forall W0 : World RobotState,
             view (heap W0) state = Some v -> tss_ W0 = tss_ W ->
             exists W',
               StateValidityChecker.cost env chk (Some state) W0
               = Some (weighted_volume_sum
                         (CollisionResult.cost_sources
                            (checkCollision env (collision_request_with_cost_ chk)
                               (copyToRobotState env (tss_ W) v))), W')
               /\ trace W' = trace W0 ++ [EvCopyToRobotState state;
                                          EvCheckCollision (collision_request_with_cost_ chk)]
               /\ heap W' = heap W0).
  { intros W0 Hv0 Ht0. unfold_query. rewrite Hv0. cbn [heap tss_ res trace logged].
    rewrite accumulate_cost_sum_from, Ht0.
    eexists. split; [reflexivity|]. cbn [trace heap]. rewrite <- app_assoc. auto. }
  destruct (Hrun W Hv eq_refl) as (W' & Hc & Htr & Hh).
  exists W'. split; [exact Hc|]. split; [intros ->; reflexivity|].
  split; [apply new_events_app, Htr|]. split; [exact Hh|].
  intros q c.
  destruct (Hrun (set_cache q c W)) as (W'' & Hc' & _ & Hh').
  - cbn [set_cache heap]. rewrite view_recache. exact Hv.
  - reflexivity.
  - exists W''. split; assumption.
Qed.

(** The scene reports the cost sources (2, 3) and (1, 4): the cost is 10. *)
Lemma cost_of_free_state :
  view (heap (world_of free_state)) 1%positive
  = Some (AmbientView (StateType.values free_state))
  /\ exists W',
       StateValidityChecker.cost scene chk s (world_of free_state) = Some (d 10, W')
       /\ heap W' = heap (world_of free_state).
Proof.
  split; [reflexivity|].
  destruct (cost_is_weighted_volume_sum
              scene chk 1%positive (AmbientView (StateType.values free_state))
              (world_of free_state) eq_refl)
    as (W' & Hrun & _ & _ & Hheap & _).
  exists W'. split; [exact Hrun | exact Hheap].
Defined.

(** ** The bounds gate *)

(** C8 (as amended): on a state that violates bounds, an [isValid] call of
    either overload and either variant returns, and the only collaborator
    it may have called is the bounds check: no translation (the scratch
    buffer is as before), no constraint, feasibility or collision call.  If
    moreover the cache holds no terminal answer, the call asks for the
    bounds once, marks the state invalid (with distance 0 in the distance
    overload) and returns false. *)
Theorem bounds_violation_short_circuits {RobotState : Type}
    (env : Collaborators RobotState) (chk : Checker) (variant : CheckerVariant)
    (state p : loc) (st : StateType.t) (v : StateView)
    (verbose : bool) (dist : double) (W : World RobotState) :
  target variant (heap W) state = Some (p, st, v) ->
  satisfiesBounds env v = false ->
  (exists r W',
      isValid env chk variant (Some state) verbose W = Some (r, W')
      /\ forallb is_bounds_query (new_events W W') = true
      /\ tss_ W' = tss_ W
      /\ (StateType.validity_known st = false ->
          r = false
          /\ new_events W W' = [EvSatisfiesBounds state]
          /\ heap W' = <[p := ModelBasedState (StateType.markInvalid st)]> (heap W)))
  /\ (exists r d W',
      isValid_dist env chk variant (Some state) dist verbose W = Some ((r, d), W')
      /\ forallb is_bounds_query (new_events W W') = true
      /\ tss_ W' = tss_ W
      /\ (StateType.validity_known st && StateType.distance_known st = false ->
          r = false
          /\ new_events W W' = [EvSatisfiesBounds state]
          /\ heap W'
             = <[p := ModelBasedState (StateType.markInvalid_d Double.zero st)]> (heap W))).
Proof.
  intros Ht Hb. split.
  - destruct (StateType.validity_known st) eqn:Hk.
    + exists (StateType.marked_valid st), W.
      split; [|rewrite new_events_none; repeat split; discriminate].
      destruct variant; use_target Ht; unfold_method; known; reflexivity.
    + destruct variant, verbose; use_target Ht; unfold_method; known;
        (do 2 eexists; split; [reflexivity|]);
        cbn [heap tss_];
        (rewrite (new_events_app _ _ [EvSatisfiesBounds state]) by reflexivity);
        auto.
  - destruct (StateType.validity_known st && StateType.distance_known st) eqn:Hk.
    + apply andb_prop in Hk as [Hk Hdk].
      exists (StateType.marked_valid st), (StateType.distance st), W.
      split; [|rewrite new_events_none; repeat split; discriminate].
      destruct variant; use_target Ht; unfold_method; known; reflexivity.
    + destruct variant, verbose; use_target Ht; unfold_method; known; rewrite Hk; known;
        (do 3 eexists; split; [reflexivity|]);
        cbn [heap tss_];
        (rewrite (new_events_app _ _ [EvSatisfiesBounds state]) by reflexivity);
        auto.
Qed.

(** The out-of-bounds state of the scene, asked through its wrapper. *)
Lemma outside_state_is_rejected_at_the_bounds_gate :
  target Constrained (heap (world_of outside_state)) 2%positive
  = Some (1%positive, outside_state, WrappedView (StateType.values outside_state))
  /\ satisfiesBounds scene (WrappedView (StateType.values outside_state)) = false
  /\ exists W',
       isValid scene chk Constrained w false (world_of outside_state) = Some (false, W')
       /\ new_events (world_of outside_state) W' = [EvSatisfiesBounds 2%positive]
       /\ heap W' !! 1%positive
          = Some (ModelBasedState (StateType.mk [d 9; d 1; d 1] true false false Double.zero)).
Proof.
  split; [reflexivity|]. split; [reflexivity|].
  destruct (bounds_violation_short_circuits
              scene chk Constrained 2%positive 1%positive outside_state
              (WrappedView (StateType.values outside_state)) false Double.zero
              (world_of outside_state) eq_refl eq_refl)
    as ((r & W' & Hrun & _ & _ & Hmiss) & _).
  destruct (Hmiss eq_refl) as (-> & Hev & Hheap).
  exists W'. split; [exact Hrun|]. split; [exact Hev|]. rewrite Hheap. reflexivity.
Defined.

(** C8 (as stated) fails on a state outside the bounds whose cache already
    holds a positive verdict: the call answers from the cache, returns true
    and marks nothing. *)
Lemma cached_valid_state_outside_bounds_is_reported_valid :
  heap (world_of cached_outside_state) !! 1%positive
  = Some (ModelBasedState cached_outside_state)
  /\ satisfiesBounds scene (AmbientView (StateType.values cached_outside_state)) = false
  /\ StateValidityChecker.isValid scene chk s false (world_of cached_outside_state)
     = Some (true, world_of cached_outside_state)
  /\ StateValidityChecker.isValid_dist scene chk s Double.zero false
       (world_of cached_outside_state)
     = Some ((true, d 5), world_of cached_outside_state).
Proof. repeat split; reflexivity. Qed.

(** ** Default verbosity *)

(** C9: after [setVerbose(flag)], a call of [isValid] that passes no
    [verbose] argument is the call with [verbose = flag], for both overloads
    of the basic checker and for the constrained checker; the request
    templates are those of the checker before [setVerbose].  Any collision
    query such a boolean call issues uses the verbose template when [flag]
    is true and the plain one otherwise, and on a checker as constructed the
    [verbose] field of that template is [flag]. *)
Theorem setVerbose_sets_default_verbosity {RobotState : Type}
    (env : Collaborators RobotState) (chk : Checker) (flag : bool)
    (state : ptr) (dist : double) (W : World RobotState) :
  let chk' := StateValidityChecker.setVerbose flag chk in
  StateValidityChecker.isValid_default env chk' state W
  = StateValidityChecker.isValid env chk state flag W
  /\ StateValidityChecker.isValid_dist_default env chk' state dist W
     = StateValidityChecker.isValid_dist env chk state dist flag W
  /\ ConstrainedPlanningStateValidityChecker.isValid_default env chk' state W
     = ConstrainedPlanningStateValidityChecker.isValid env chk state flag W
  /\ (forall r W' req,
        StateValidityChecker.isValid_default env chk' state W = Some (r, W') ->
        In (EvCheckCollision req) (new_events W W') ->
        req = if flag then collision_request_simple_verbose_ chk
              else collision_request_simple_ chk)
  /\ forall group_name,
       CollisionRequest.verbose
         (if flag
          then collision_request_simple_verbose_ (StateValidityChecker.new group_name)
          else collision_request_simple_ (StateValidityChecker.new group_name))
       = flag.
Proof.
  intros chk'. subst chk'.
  assert (Hb : StateValidityChecker.isValid_default env
                 (StateValidityChecker.setVerbose flag chk) state W
               = StateValidityChecker.isValid env chk state flag W) by reflexivity.
  split; [exact Hb|]. split; [reflexivity|]. split; [reflexivity|]. split.
  - intros r W' req Hrun. rewrite Hb in Hrun.
    apply (isValid_collision_template env chk Basic state flag W W' r Hrun).
  - intros group_name. destruct flag; reflexivity.
Qed.


(** ** Whole runs *)

(** Follows every path of the run in the goal. *)
Ltac split_run :=
  repeat first
    [ progress known
    | match goal with
      | |- context [getPathConstraints ?e] =>
          destruct (getPathConstraints e) as [?|] eqn:?
      | |- context [if ?b then _ else _] => destruct b eqn:?
      end ].

(** A wrapper and the state it wraps live at different addresses. *)
Lemma target_constrained_ne (h : gmap loc Object) (state p : loc)
    (st : StateType.t) (v : StateView) :
  target Constrained h state = Some (p, st, v) -> state <> p.
Proof.
  intros Ht. apply target_constrained in Ht as (Hw & Hp & _).
  intros ->. congruence.
Qed.

(** A call on a state whose validity is cached answers from the cache. *)
Lemma isValid_cache_hit {RobotState : Type}
    (env : Collaborators RobotState) (chk : Checker) (variant : CheckerVariant)
    (state p : loc) (st : StateType.t) (v : StateView)
    (verbose : bool) (W : World RobotState) :
  target variant (heap W) state = Some (p, st, v) ->
  StateType.validity_known st = true ->
  isValid env chk variant (Some state) verbose W = Some (StateType.marked_valid st, W).
Proof.
  intros Ht Hk. destruct variant; use_target Ht; unfold_method; known; reflexivity.
Qed.

Lemma isValid_dist_cache_hit {RobotState : Type}
    (env : Collaborators RobotState) (chk : Checker) (variant : CheckerVariant)
    (state p : loc) (st : StateType.t) (v : StateView)
    (verbose : bool) (dist : double) (W : World RobotState) :
  target variant (heap W) state = Some (p, st, v) ->
  StateType.validity_known st = true ->
  StateType.distance_known st = true ->
  isValid_dist env chk variant (Some state) dist verbose W
  = Some ((StateType.marked_valid st, StateType.distance st), W).
Proof.
  intros Ht Hk Hd. destruct variant; use_target Ht; unfold_method; known; reflexivity.
Qed.

(** Marking the target of a call keeps it the target, with the same
    coordinates. *)
Lemma target_insert (variant : CheckerVariant) (h : gmap loc Object) (state p : loc)
    (st st' : StateType.t) (v : StateView) :
  target variant h state = Some (p, st, v) ->
  StateType.values st' = StateType.values st ->
  target variant (<[p := ModelBasedState st']> h) state = Some (p, st', v).
Proof.
  intros Ht Hv. destruct variant.
  - apply target_basic in Ht as (-> & Hp & ->).
    unfold target. rewrite lookup_insert_eq, Hv. reflexivity.
  - pose proof (target_constrained_ne _ _ _ _ _ Ht) as Hne.
    apply target_constrained in Ht as (Hw & Hp & ->).
    unfold target. rewrite lookup_insert_ne by congruence. rewrite Hw.
    rewrite lookup_insert_eq, Hv. reflexivity.
Qed.

Lemma is_mark_values (st st' : StateType.t) :
  is_mark st st' -> StateType.values st' = StateType.values st.
Proof. intros [-> | [-> | [d ->]]]; reflexivity. Qed.

Lemma is_mark_known (st st' : StateType.t) :
  is_mark st st' -> StateType.validity_known st' = true.
Proof. intros [-> | [-> | [d ->]]]; reflexivity. Qed.

(** What a call of either overload does to the heap: nothing, or one mark
    operation on the target state. *)
Lemma isValid_heap_effect {RobotState : Type}
    (env : Collaborators RobotState) (chk : Checker) (variant : CheckerVariant)
    (state p : loc) (st : StateType.t) (v : StateView)
    (verbose : bool) (W : World RobotState) :
  target variant (heap W) state = Some (p, st, v) ->
  exists r W',
    isValid env chk variant (Some state) verbose W = Some (r, W')
    /\ (heap W' = heap W
        \/ exists st', is_mark st st' /\ heap W' = <[p := ModelBasedState st']> (heap W)).
Proof.
  intros Ht. destruct variant; use_target Ht; unfold_method; split_run;
    (do 2 eexists; split; [reflexivity|]; cbn [heap];
     first [ left; reflexivity
           | right; eexists; split; [|reflexivity]; unfold is_mark; eauto ]).
Qed.

Lemma isValid_dist_heap_effect {RobotState : Type}
    (env : Collaborators RobotState) (chk : Checker) (variant : CheckerVariant)
    (state p : loc) (st : StateType.t) (v : StateView)
    (verbose : bool) (dist : double) (W : World RobotState) :
  target variant (heap W) state = Some (p, st, v) ->
  exists r W',
    isValid_dist env chk variant (Some state) dist verbose W = Some (r, W')
    /\ (heap W' = heap W
        \/ exists st', is_mark st st' /\ heap W' = <[p := ModelBasedState st']> (heap W)).
Proof.
  intros Ht. destruct variant; use_target Ht; unfold_method; split_run;
    (do 2 eexists; split; [reflexivity|]; cbn [heap];
     first [ left; reflexivity
           | right; eexists; split; [|reflexivity]; unfold is_mark; eauto ]).
Qed.

(** X1: a call of [isValid], of either overload and either variant, on a
    pointer of the kind the variant expects returns, and the collaborator
    calls it made are an initial part of one fixed sequence: bounds,
    translation (both on the pointer it was given), [decide] if a constraint
    set is attached, feasibility, and one collision query with the template
    of the overload and of the [verbose] argument.  So no gate runs before
    an earlier one, and none runs twice. *)
Theorem gates_run_in_order_at_most_once {RobotState : Type}
    (env : Collaborators RobotState) (chk : Checker) (variant : CheckerVariant)
    (state p : loc) (st : StateType.t) (v : StateView)
    (verbose : bool) (dist : double) (W : World RobotState) :
  target variant (heap W) state = Some (p, st, v) ->
  (exists r W' rest,
      isValid env chk variant (Some state) verbose W = Some (r, W')
      /\ gate_chain env state verbose
           (if verbose then collision_request_simple_verbose_ chk
            else collision_request_simple_ chk)
         = new_events W W' ++ rest)
  /\ (exists r W' rest,
      isValid_dist env chk variant (Some state) dist verbose W = Some (r, W')
      /\ gate_chain env state verbose
           (if verbose then collision_request_with_distance_verbose_ chk
            else collision_request_with_distance_ chk)
         = new_events W W' ++ rest).
Proof.
  intros Ht. unfold gate_chain, decide_events.
  split; destruct variant; use_target Ht; unfold_method; split_run;
    (do 3 eexists; split; [reflexivity|];
     erewrite new_events_app
       by (cbn [trace]; rewrite <- ?app_assoc; try reflexivity; symmetry; apply app_nil_r);
     cbn [app]; reflexivity).
Qed.

Lemma gates_of_free_state_in_order :
  target Constrained (heap (world_of free_state)) 2%positive
  = Some (1%positive, free_state, WrappedView (StateType.values free_state))
  /\ exists r W' rest,
       isValid scene chk Constrained w true (world_of free_state) = Some (r, W')
       /\ [EvSatisfiesBounds 2%positive; EvCopyToRobotState 2%positive; EvDecide true;
           EvIsStateFeasible true; EvCheckCollision (collision_request_simple_verbose_ chk)]
          = new_events (world_of free_state) W' ++ rest.
Proof.
  split; [reflexivity|].
  exact (proj1 (gates_run_in_order_at_most_once
                  scene chk Constrained 2%positive 1%positive free_state
                  (WrappedView (StateType.values free_state)) true Double.zero
                  (world_of free_state) eq_refl)).
Defined.

(** X2: a call of [isValid], of either overload and either variant, changes
    nothing in the heap but the cache block of the state it works on: that
    state keeps its coordinates, and every other address, the wrapper
    included, holds what it held. *)
Theorem isValid_touches_only_the_target_cache {RobotState : Type}
    (env : Collaborators RobotState) (chk : Checker) (variant : CheckerVariant)
    (state p : loc) (st : StateType.t) (v : StateView)
    (verbose : bool) (dist : double) (W : World RobotState) :
  target variant (heap W) state = Some (p, st, v) ->
  (exists r W' st',
      isValid env chk variant (Some state) verbose W = Some (r, W')
      /\ heap W' !! p = Some (ModelBasedState st')
      /\ StateType.values st' = StateType.values st
      /\ forall q, q <> p -> heap W' !! q = heap W !! q)
  /\ (exists r W' st',
      isValid_dist env chk variant (Some state) dist verbose W = Some (r, W')
      /\ heap W' !! p = Some (ModelBasedState st')
      /\ StateType.values st' = StateType.values st
      /\ forall q, q <> p -> heap W' !! q = heap W !! q).
Proof.
  intros Ht.
  assert (Hp : heap W !! p = Some (ModelBasedState st)).
  { destruct variant; use_target Ht; assumption. }
  split.
  - destruct (isValid_heap_effect env chk variant state p st v verbose W Ht)
      as (r & W' & Hrun & [Hh | (st' & Hm & Hh)]).
    + exists r, W', st. rewrite Hh. auto.
    + exists r, W', st'. rewrite Hh. split; [exact Hrun|].
      split; [apply lookup_insert_eq|]. split; [apply is_mark_values, Hm|].
      intros q Hq. apply lookup_insert_ne. congruence.
  - destruct (isValid_dist_heap_effect env chk variant state p st v verbose dist W Ht)
      as (r & W' & Hrun & [Hh | (st' & Hm & Hh)]).
    + exists r, W', st. rewrite Hh. auto.
    + exists r, W', st'. rewrite Hh. split; [exact Hrun|].
      split; [apply lookup_insert_eq|]. split; [apply is_mark_values, Hm|].
      intros q Hq. apply lookup_insert_ne. congruence.
Qed.

Lemma wrapper_of_outside_state_survives_isValid :
  target Constrained (heap (world_of outside_state)) 2%positive
  = Some (1%positive, outside_state, WrappedView (StateType.values outside_state))
  /\ exists r W',
       isValid scene chk Constrained w false (world_of outside_state) = Some (r, W')
       /\ heap W' !! 2%positive = Some (ConstrainedState 1%positive).
Proof.
  split; [reflexivity|].
  destruct (isValid_touches_only_the_target_cache
              scene chk Constrained 2%positive 1%positive outside_state
              (WrappedView (StateType.values outside_state)) false Double.zero
              (world_of outside_state) eq_refl)
    as ((r & W' & st' & Hrun & _ & _ & Hframe) & _).
  exists r, W'. split; [exact Hrun|]. rewrite Hframe; [reflexivity | discriminate].
Defined.

Lemma is_mark_coherent (st st' : StateType.t) :
  is_mark st st' -> coherent (ModelBasedState st') = true.
Proof.
  intros [-> | [-> | [d ->]]]; cbn; destruct (StateType.distance_known st); reflexivity.
Qed.

(** X3: if every cache block of the heap has a known validity whenever it
    has a known distance, the same is true after a call of [isValid], of
    either overload and either variant. *)
Theorem isValid_keeps_heap_coherent {RobotState : Type}
    (env : Collaborators RobotState) (chk : Checker) (variant : CheckerVariant)
    (state p : loc) (st : StateType.t) (v : StateView)
    (verbose : bool) (dist : double) (W : World RobotState) :
  target variant (heap W) state = Some (p, st, v) ->
  heap_coherent (heap W) ->
  (exists r W',
      isValid env chk variant (Some state) verbose W = Some (r, W')
      /\ heap_coherent (heap W'))
  /\ (exists r W',
      isValid_dist env chk variant (Some state) dist verbose W = Some (r, W')
      /\ heap_coherent (heap W')).
Proof.
  intros Ht Hc. split.
  - destruct (isValid_heap_effect env chk variant state p st v verbose W Ht)
      as (r & W' & Hrun & [Hh | (st' & Hm & Hh)]);
      exists r, W'; (split; [exact Hrun|]); rewrite Hh; [exact Hc|].
    apply map_Forall_insert_2; [apply (is_mark_coherent st), Hm | exact Hc].
  - destruct (isValid_dist_heap_effect env chk variant state p st v verbose dist W Ht)
      as (r & W' & Hrun & [Hh | (st' & Hm & Hh)]);
      exists r, W'; (split; [exact Hrun|]); rewrite Hh; [exact Hc|].
    apply map_Forall_insert_2; [apply (is_mark_coherent st), Hm | exact Hc].
Qed.

Lemma world_of_fresh_is_coherent (vs : list double) :
  heap_coherent (heap (world_of (fresh vs))).
Proof.
  unfold heap_coherent, world_of. cbn [heap].
  apply map_Forall_insert_2; [reflexivity|].
  apply map_Forall_insert_2; [reflexivity|].
  apply map_Forall_empty.
Defined.

Lemma violating_state_stays_coherent :
  target Basic (heap (world_of violating_state)) 1%positive
  = Some (1%positive, violating_state, AmbientView (StateType.values violating_state))
  /\ heap_coherent (heap (world_of violating_state))
  /\ exists r W',
       isValid_dist scene chk Basic s Double.zero false (world_of violating_state)
       = Some (r, W')
       /\ heap_coherent (heap W').
Proof.
  split; [reflexivity|]. split; [apply world_of_fresh_is_coherent|].
  exact (proj2 (isValid_keeps_heap_coherent
                  scene chk Basic 1%positive 1%positive violating_state
                  (AmbientView (StateType.values violating_state)) false Double.zero
                  (world_of violating_state) eq_refl
                  (world_of_fresh_is_coherent _))).
Defined.

(** X4: the basic checker's boolean [isValid] returns true only from the
    cache.  On a state whose validity is not known it returns false on every
    path, the collision-free one included: the value returned at the end is
    the negation of the flag set to true before the collision block. *)
Theorem basic_isValid_returns_false_unless_cached {RobotState : Type}
    (env : Collaborators RobotState) (chk : Checker)
    (state : loc) (st : StateType.t) (verbose : bool) (W : World RobotState) :
  heap W !! state = Some (ModelBasedState st) ->
  StateType.validity_known st = false ->
  exists W', StateValidityChecker.isValid env chk (Some state) verbose W = Some (false, W').
Proof.
  intros Hp Hk. unfold_method. split_run; eexists; reflexivity.
Qed.

Lemma basic_isValid_reports_free_state_invalid :
  heap (world_of free_state) !! 1%positive = Some (ModelBasedState free_state)
  /\ exists W',
       StateValidityChecker.isValid scene chk s false (world_of free_state)
       = Some (false, W').
Proof.
  split; [reflexivity|].
  exact (basic_isValid_returns_false_unless_cached
           scene chk 1%positive free_state false (world_of free_state) eq_refl eq_refl).
Defined.

(** X5: on an uncached state that passes bounds, constraints and
    feasibility and whose configuration has no NaN, the basic checker's
    boolean [isValid] returns false and marks the state from the collision
    query, valid when the query reports no collision; the next call then
    answers from the cache with the negation of the collision flag, so the
    two calls disagree on a collision-free state. *)
Theorem basic_isValid_caches_the_collision_outcome {RobotState : Type}
    (env : Collaborators RobotState) (chk : Checker)
    (state : loc) (st : StateType.t) (verbose verbose' : bool) (W : World RobotState) :
  let rs := copyToRobotState env (tss_ W) (AmbientView (StateType.values st)) in
  let collides :=
    CollisionResult.collision
      (checkCollision env
         (if verbose then collision_request_simple_verbose_ chk
          else collision_request_simple_ chk) rs) in
  heap W !! state = Some (ModelBasedState st) ->
  StateType.validity_known st = false ->
  satisfiesBounds env (AmbientView (StateType.values st)) = true ->
  constraints_satisfied env rs verbose = true ->
  isStateFeasible env rs verbose = true ->
  hasNaN (copyJointGroupPositions env rs) = false ->
  exists W1,
    StateValidityChecker.isValid env chk (Some state) verbose W = Some (false, W1)
    /\ heap W1
       = <[state := ModelBasedState
                      (if collides then StateType.markInvalid st
                       else StateType.markValid st)]> (heap W)
    /\ StateValidityChecker.isValid env chk (Some state) verbose' W1
       = Some (negb collides, W1).
Proof.
  intros rs collides Hp Hk Hb Hc Hf Hn. subst rs collides.
  unfold constraints_satisfied in Hc.
  assert (Hrun : exists W1,
    StateValidityChecker.isValid env chk (Some state) verbose W = Some (false, W1)
    /\ heap W1
       = <[state := ModelBasedState
                      (if CollisionResult.collision
                            (checkCollision env
                               (if verbose then collision_request_simple_verbose_ chk
                                else collision_request_simple_ chk)
                               (copyToRobotState env (tss_ W)
                                  (AmbientView (StateType.values st))))
                       then StateType.markInvalid st
                       else StateType.markValid st)]> (heap W)).
  { unfold_method. known.
    destruct (getPathConstraints env) as [kset|]; known;
      destruct (CollisionResult.collision _) eqn:Hcol; known;
      (eexists; split; reflexivity). }
  destruct Hrun as (W1 & Hrun & Hheap).
  exists W1. split; [exact Hrun|]. split; [exact Hheap|].
  destruct (CollisionResult.collision _) eqn:Hcol.
  - apply (isValid_cache_hit env chk Basic state state (StateType.markInvalid st)
             (AmbientView (StateType.values st)) verbose' W1); [|reflexivity].
    rewrite Hheap. unfold target. rewrite lookup_insert_eq. reflexivity.
  - apply (isValid_cache_hit env chk Basic state state (StateType.markValid st)
             (AmbientView (StateType.values st)) verbose' W1); [|reflexivity].
    rewrite Hheap. unfold target. rewrite lookup_insert_eq. reflexivity.
Qed.

Lemma basic_isValid_answers_true_the_second_time :
  heap (world_of free_state) !! 1%positive = Some (ModelBasedState free_state)
  /\ exists W1,
       StateValidityChecker.isValid scene chk s false (world_of free_state)
       = Some (false, W1)
       /\ StateValidityChecker.isValid scene chk s false W1 = Some (true, W1).
Proof.
  split; [reflexivity|].
  destruct (basic_isValid_caches_the_collision_outcome
              scene chk 1%positive free_state false false (world_of free_state))
    as (W1 & Hrun & _ & Hagain); try reflexivity.
  exists W1. split; [exact Hrun | exact Hagain].
Defined.

(** X6: the constrained checker's boolean [isValid] is idempotent on every
    state: a second call, whatever its [verbose], returns the verdict of the
    first and leaves the world, trace and log included, as the first call
    left it. *)
Theorem constrained_isValid_is_idempotent {RobotState : Type}
    (env : Collaborators RobotState) (chk : Checker)
    (state p : loc) (st : StateType.t) (v : StateView)
    (verbose verbose' : bool) (W : World RobotState) :
  target Constrained (heap W) state = Some (p, st, v) ->
  exists r W1,
    isValid env chk Constrained (Some state) verbose W = Some (r, W1)
    /\ isValid env chk Constrained (Some state) verbose' W1 = Some (r, W1).
Proof.
  intros Ht.
  destruct (isValid_heap_effect env chk Constrained state p st v verbose W Ht)
    as (r & W1 & Hrun & Heff).
  destruct (constrained_isValid_memoizes env chk state p st v verbose W W1 r Ht Hrun)
    as (st1 & Hp1 & Hk1 & Hr1).
  exists r, W1. split; [exact Hrun|]. rewrite <- Hr1.
  apply (isValid_cache_hit env chk Constrained state p st1 v verbose' W1); [|exact Hk1].
  destruct Heff as [Hh | (st' & Hm & Hh)].
  - rewrite Hh in Hp1 |- *. rewrite Ht.
    apply target_constrained in Ht as (_ & Hp & _). congruence.
  - rewrite Hh in Hp1 |- *. rewrite lookup_insert_eq in Hp1.
    replace st1 with st' by congruence.
    apply (target_insert _ _ _ _ st); [exact Ht | apply is_mark_values, Hm].
Qed.

Lemma constrained_isValid_twice_on_nan_state :
  target Constrained (heap (world_of nan_state)) 2%positive
  = Some (1%positive, nan_state, WrappedView (StateType.values nan_state))
  /\ exists r W1,
       isValid scene chk Constrained w false (world_of nan_state) = Some (r, W1)
       /\ isValid scene chk Constrained w true W1 = Some (r, W1).
Proof.
  split; [reflexivity|].
  exact (constrained_isValid_is_idempotent
           scene chk 2%positive 1%positive nan_state
           (WrappedView (StateType.values nan_state)) false true
           (world_of nan_state) eq_refl).
Defined.

(** X7: at a bounds failure the distance overload of either variant returns
    false without assigning [dist], which keeps the caller's value, while
    the cache gets distance [0.0]: a second call returns [0.0] from the
    cache, and the boolean overload then answers false from the same cache
    block. *)
Theorem isValid_dist_leaves_dist_at_a_bounds_failure {RobotState : Type}
    (env : Collaborators RobotState) (chk : Checker) (variant : CheckerVariant)
    (state p : loc) (st : StateType.t) (v : StateView)
    (verbose verbose' : bool) (dist dist' : double) (W : World RobotState) :
  target variant (heap W) state = Some (p, st, v) ->
  StateType.validity_known st && StateType.distance_known st = false ->
  satisfiesBounds env v = false ->
  exists W1,
    isValid_dist env chk variant (Some state) dist verbose W = Some ((false, dist), W1)
    /\ isValid_dist env chk variant (Some state) dist' verbose' W1
       = Some ((false, Double.zero), W1)
    /\ isValid env chk variant (Some state) verbose' W1 = Some (false, W1).
Proof.
  intros Ht Hk Hb.
  assert (Hrun : exists W1,
    isValid_dist env chk variant (Some state) dist verbose W = Some ((false, dist), W1)
    /\ heap W1
       = <[p := ModelBasedState (StateType.markInvalid_d Double.zero st)]> (heap W)).
  { pose proof Ht as Ht'.
    destruct variant, verbose; use_target Ht'; unfold_method; known; rewrite Hk; known;
      (eexists; split; reflexivity). }
  destruct Hrun as (W1 & Hrun & Hheap).
  assert (Ht1 : target variant (heap W1) state
                = Some (p, StateType.markInvalid_d Double.zero st, v)).
  { rewrite Hheap. apply (target_insert _ _ _ _ st); [exact Ht | reflexivity]. }
  exists W1. split; [exact Hrun|]. split.
  - apply (isValid_dist_cache_hit env chk variant state p _ v verbose' dist' W1 Ht1);
      reflexivity.
  - apply (isValid_cache_hit env chk variant state p _ v verbose' W1 Ht1). reflexivity.
Qed.

Lemma isValid_dist_twice_on_outside_state :
  target Basic (heap (world_of outside_state)) 1%positive
  = Some (1%positive, outside_state, AmbientView (StateType.values outside_state))
  /\ satisfiesBounds scene (AmbientView (StateType.values outside_state)) = false
  /\ exists W1,
       isValid_dist scene chk Basic s (d 7) false (world_of outside_state)
       = Some ((false, d 7), W1)
       /\ isValid_dist scene chk Basic s (d 7) false W1 = Some ((false, Double.zero), W1).
Proof.
  split; [reflexivity|]. split; [reflexivity|].
  destruct (isValid_dist_leaves_dist_at_a_bounds_failure
              scene chk Basic 1%positive 1%positive outside_state
              (AmbientView (StateType.values outside_state)) false false (d 7) (d 7)
              (world_of outside_state) eq_refl eq_refl eq_refl)
    as (W1 & Hrun & Hagain & _).
  exists W1. split; [exact Hrun | exact Hagain].
Defined.

(** X8: a call of [isValid] logs nothing, except on a cache miss followed
    by a bounds failure, where it logs the single line "State outside
    bounds": the basic checker at INFO level and only when [verbose] is
    set, the constrained checker at DEBUG level whatever [verbose] is. *)
Theorem isValid_logs_only_bounds_failures {RobotState : Type}
    (env : Collaborators RobotState) (chk : Checker) (variant : CheckerVariant)
    (state p : loc) (st : StateType.t) (v : StateView)
    (verbose : bool) (dist : double) (W : World RobotState) :
  target variant (heap W) state = Some (p, st, v) ->
  (exists r W',
      isValid env chk variant (Some state) verbose W = Some (r, W')
      /\ logged W'
         = logged W
           ++ if negb (StateType.validity_known st) && negb (satisfiesBounds env v)
              then bounds_log variant verbose else [])
  /\ (exists r W',
      isValid_dist env chk variant (Some state) dist verbose W = Some (r, W')
      /\ logged W'
         = logged W
           ++ if negb (StateType.validity_known st && StateType.distance_known st)
                 && negb (satisfiesBounds env v)
              then bounds_log variant verbose else []).
Proof.
  intros Ht. unfold bounds_log.
  split; destruct variant; use_target Ht; unfold_method; split_run;
    (do 2 eexists; split; [reflexivity|]; cbn [logged];
     rewrite ?app_nil_r; reflexivity).
Qed.

Lemma constrained_isValid_logs_at_debug_level :
  target Constrained (heap (world_of outside_state)) 2%positive
  = Some (1%positive, outside_state, WrappedView (StateType.values outside_state))
  /\ exists r W',
       isValid scene chk Constrained w false (world_of outside_state) = Some (r, W')
       /\ logged W' = [(DEBUG, "State outside bounds"%string)].
Proof.
  split; [reflexivity|].
  exact (proj1 (isValid_logs_only_bounds_failures
                  scene chk Constrained 2%positive 1%positive outside_state
                  (WrappedView (StateType.values outside_state)) false Double.zero
                  (world_of outside_state) eq_refl)).
Defined.

(** X9: [clearance] never returns a negative number (its result is never
    below [0.0]), leaves the heap alone, and leaves the scratch buffer
    holding the translation of the state it was asked about. *)
Theorem clearance_is_never_negative {RobotState : Type}
    (env : Collaborators RobotState) (chk : Checker)
    (state : loc) (v : StateView) (W : World RobotState) :
  view (heap W) state = Some v ->
  exists c W',
    StateValidityChecker.clearance env chk (Some state) W = Some (c, W')
    /\ Double.ltb c Double.zero = false
    /\ heap W' = heap W
    /\ tss_ W' = copyToRobotState env (tss_ W) v.
Proof.
  intros Hv. unfold_query. rewrite Hv. cbn [heap tss_ res trace logged].
  do 2 eexists. split; [reflexivity|]. cbn [heap tss_].
  split; [|split; reflexivity].
  destruct (CollisionResult.collision _); [reflexivity|].
  destruct (Double.ltb (CollisionResult.distance _) Double.zero) eqn:Hlt;
    [reflexivity | exact Hlt].
Qed.

Lemma clearance_through_the_wrapper_is_not_negative :
  view (heap (world_of free_state)) 2%positive
  = Some (WrappedView (StateType.values free_state))
  /\ exists c W',
       StateValidityChecker.clearance scene chk w (world_of free_state) = Some (c, W')
       /\ Double.ltb c Double.zero = false.
Proof.
  split; [reflexivity|].
  destruct (clearance_is_never_negative
              scene chk 2%positive (WrappedView (StateType.values free_state))
              (world_of free_state) eq_refl)
    as (c & W' & Hrun & Hc & _).
  exists c, W'. split; [exact Hrun | exact Hc].
Defined.

(** As [isValid_collision_template], for the distance overloads. *)
Lemma isValid_dist_collision_template {RobotState : Type}
    (env : Collaborators RobotState) (chk : Checker) (variant : CheckerVariant)
    (state : ptr) (dist : double) (verbose : bool) (W W' : World RobotState)
    (r : bool * double) :
  isValid_dist env chk variant state dist verbose W = Some (r, W') ->
  forall req, In (EvCheckCollision req) (new_events W W') ->
    req = if verbose then collision_request_with_distance_verbose_ chk
          else collision_request_with_distance_ chk.
Proof.
  destruct state as [p|]; [|destruct variant; discriminate].
  destruct variant; unfold_method; intros H req Hin; paths H;
    injection H as Hr HW; subst r W';
    unfold new_events in Hin; cbn [trace] in Hin;
    rewrite <- ?app_assoc in Hin;
    rewrite ?drop_app_length, ?drop_all in Hin;
    cbn in Hin; intuition congruence.
Qed.

(** The one collision query of [cost] and of [clearance]. *)
Lemma query_collision_template {RobotState : Type}
    (env : Collaborators RobotState) (chk : Checker)
    (state : ptr) (W W' : World RobotState) (c : double) :
  (StateValidityChecker.cost env chk state W = Some (c, W') ->
   forall req, In (EvCheckCollision req) (new_events W W') ->
     req = collision_request_with_cost_ chk)
  /\ (StateValidityChecker.clearance env chk state W = Some (c, W') ->
      forall req, In (EvCheckCollision req) (new_events W W') ->
        req = collision_request_with_distance_ chk).
Proof.
  split; unfold_query; destruct state as [p|]; try discriminate;
    cbn [heap tss_ res trace logged];
    destruct (view (heap W) p) as [v|]; try discriminate;
    cbn [heap tss_ res trace logged];
    intros H req Hin; injection H as Hr HW; subst c W';
    unfold new_events in Hin; cbn [trace] in Hin;
    rewrite <- ?app_assoc in Hin; rewrite drop_app_length in Hin;
    cbn in Hin; intuition congruence.
Qed.

(** X10: on a checker constructed for a group, whatever [setVerbose] was
    called with, every collision query names that group and asks for what
    the method needs: neither distance nor cost in the boolean [isValid],
    distance in the distance overload and in [clearance], cost in [cost];
    it is verbose exactly when the [verbose] argument of [isValid] is set,
    and never in [cost] and [clearance]. *)
Theorem collision_queries_of_a_constructed_checker {RobotState : Type}
    (env : Collaborators RobotState) (group : string) (flag : bool)
    (variant : CheckerVariant) (state : ptr) (verbose : bool) (dist : double)
    (W W' : World RobotState) (req : CollisionRequest.t) :
  let chk := StateValidityChecker.setVerbose flag (StateValidityChecker.new group) in
  In (EvCheckCollision req) (new_events W W') ->
  (forall r, isValid env chk variant state verbose W = Some (r, W') ->
             req = CollisionRequest.mk group false false verbose)
  /\ (forall r, isValid_dist env chk variant state dist verbose W = Some (r, W') ->
                req = CollisionRequest.mk group true false verbose)
  /\ (forall c, StateValidityChecker.cost env chk state W = Some (c, W') ->
                req = CollisionRequest.mk group false true false)
  /\ (forall c, StateValidityChecker.clearance env chk state W = Some (c, W') ->
                req = CollisionRequest.mk group true false false).
Proof.
  intros chk Hin. subst chk. repeat split.
  - intros r Hrun.
    rewrite (isValid_collision_template _ _ _ _ _ _ _ _ Hrun req Hin).
    destruct verbose; reflexivity.
  - intros r Hrun.
    rewrite (isValid_dist_collision_template _ _ _ _ _ _ _ _ _ Hrun req Hin).
    destruct verbose; reflexivity.
  - intros c Hrun.
    rewrite (proj1 (query_collision_template _ _ _ _ _ _) Hrun req Hin). reflexivity.
  - intros c Hrun.
    rewrite (proj2 (query_collision_template _ _ _ _ _ _) Hrun req Hin). reflexivity.
Qed.

Lemma cost_query_of_the_arm_checker :
  In (EvCheckCollision (CollisionRequest.mk "arm" false true false))
     [EvCopyToRobotState 1%positive;
      EvCheckCollision (CollisionRequest.mk "arm" false true false)]
  /\ StateValidityChecker.cost scene chk s (world_of free_state)
     = Some (d 10,
             mkWorld (heap (world_of free_state)) [d 1; d 1; d 1]
               (CollisionResult.mk false Double.zero [])
               [EvCopyToRobotState 1%positive;
                EvCheckCollision (CollisionRequest.mk "arm" false true false)] [])
  /\ collision_request_with_cost_ chk = CollisionRequest.mk "arm" false true false.
Proof.
  split; [right; left; reflexivity|]. split; [reflexivity|].
  refine (proj1 (proj2 (proj2
    (collision_queries_of_a_constructed_checker
       scene "arm" false Basic s false Double.zero (world_of free_state)
       (mkWorld (heap (world_of free_state)) [d 1; d 1; d 1]
          (CollisionResult.mk false Double.zero [])
          [EvCopyToRobotState 1%positive;
           EvCheckCollision (CollisionRequest.mk "arm" false true false)] [])
       (collision_request_with_cost_ chk) _))) (d 10) eq_refl).
  right. left. reflexivity.
Defined.

(** ** The octomap service *)

(** One request when the monitor exists. *)
Lemma clearOctomap_with_a_monitor {Monitor : Type}
    (monitor_clearOctomap : Monitor -> Monitor) (m : Monitor)
    (c : ClearOctomapService.Context) :
  ClearOctomapService.planning_scene_monitor_ c = Some m ->
  ClearOctomapService.clearOctomap monitor_clearOctomap c
  = ClearOctomapService.Returned
      (ClearOctomapService.mkContext (Some (monitor_clearOctomap m))
         (ClearOctomapService.logged c
          ++ [(ClearOctomapService.INFO, "Clearing octomap..."%string);
              (ClearOctomapService.INFO, "Octomap cleared."%string)])).
Proof.
  intros Hm. unfold ClearOctomapService.clearOctomap, ClearOctomapService.log.
  rewrite Hm. cbn. rewrite Hm. cbn. rewrite <- app_assoc. reflexivity.
Qed.

(** X11: when the planning scene monitor exists, any number of clear
    requests served in a row all return; the monitor is still there and has
    been cleared once per request, and the log has grown by two lines per
    request, all at INFO level. *)
Theorem serve_with_a_monitor_clears_every_time {Monitor : Type}
    (monitor_clearOctomap : Monitor -> Monitor) (n : nat) (m : Monitor)
    (c : ClearOctomapService.Context) :
  ClearOctomapService.planning_scene_monitor_ c = Some m ->
  exists lines,
    ClearOctomapService.serve monitor_clearOctomap n c
    = ClearOctomapService.Returned
        (ClearOctomapService.mkContext (Some (Nat.iter n monitor_clearOctomap m))
           (ClearOctomapService.logged c ++ lines))
    /\ length lines = 2 * n
    /\ Forall (fun line => fst line = ClearOctomapService.INFO) lines.
Proof.
  revert m c. induction n as [|n IH]; intros m c Hm.
  - exists []. cbn. rewrite app_nil_r. destruct c as [mon lg]. cbn in Hm. subst mon.
    auto.
  - cbn [ClearOctomapService.serve].
    rewrite (clearOctomap_with_a_monitor monitor_clearOctomap m c Hm).
    destruct (IH (monitor_clearOctomap m)
                (ClearOctomapService.mkContext (Some (monitor_clearOctomap m))
                   (ClearOctomapService.logged c
                    ++ [(ClearOctomapService.INFO, "Clearing octomap..."%string);
                        (ClearOctomapService.INFO, "Octomap cleared."%string)]))
                eq_refl) as (lines & Hrun & Hlen & Hinfo).
    exists ([(ClearOctomapService.INFO, "Clearing octomap..."%string);
             (ClearOctomapService.INFO, "Octomap cleared."%string)] ++ lines).
    split; [|split].
    + rewrite Hrun. cbn [ClearOctomapService.logged]. rewrite <- !app_assoc.
      rewrite Nat.iter_succ_r. reflexivity.
    + cbn. rewrite Hlen. lia.
    + repeat constructor. exact Hinfo.
Qed.

Lemma three_requests_clear_three_times :
  ClearOctomapService.planning_scene_monitor_ (ClearOctomapService.mkContext (Some 5) [])
  = Some 5
  /\ exists lines,
       ClearOctomapService.serve S 3 (ClearOctomapService.mkContext (Some 5) [])
       = ClearOctomapService.Returned (ClearOctomapService.mkContext (Some 8) lines)
       /\ length lines = 6.
Proof.
  split; [reflexivity|].
  destruct (serve_with_a_monitor_clears_every_time
              S 3 5 (ClearOctomapService.mkContext (Some 5) []) eq_refl)
    as (lines & Hrun & Hlen & _).
  exists lines. split; [exact Hrun | exact Hlen].
Defined.

(** X12: when the planning scene monitor does not exist, the first clear
    request logs the error and then "Clearing octomap..." and goes on to
    dereference the null monitor: it does not return, "Octomap cleared." is
    never logged, and no later request is served. *)
Theorem clearOctomap_without_a_monitor_does_not_return {Monitor : Type}
    (monitor_clearOctomap : Monitor -> Monitor) (n : nat)
    (c : ClearOctomapService.Context (Monitor := Monitor)) :
  ClearOctomapService.planning_scene_monitor_ c = None ->
  ClearOctomapService.serve monitor_clearOctomap (S n) c
  = ClearOctomapService.NullDereference
      (ClearOctomapService.mkContext None
         (ClearOctomapService.logged c
          ++ [(ClearOctomapService.ERROR,
               "Cannot clear octomap since planning_scene_monitor_ does not exist."%string);
              (ClearOctomapService.INFO, "Clearing octomap..."%string)])).
Proof.
  intros Hm. cbn [ClearOctomapService.serve].
  unfold ClearOctomapService.clearOctomap, ClearOctomapService.log.
  rewrite Hm. cbn. rewrite ?Hm. rewrite <- ?app_assoc. reflexivity.
Qed.

Lemma request_without_a_monitor_fails :
  ClearOctomapService.planning_scene_monitor_
    (ClearOctomapService.mkContext (@None nat) []) = None
  /\ ClearOctomapService.serve S 2 (ClearOctomapService.mkContext None [])
     = ClearOctomapService.NullDereference
         (ClearOctomapService.mkContext None
            [(ClearOctomapService.ERROR,
              "Cannot clear octomap since planning_scene_monitor_ does not exist."%string);
             (ClearOctomapService.INFO, "Clearing octomap..."%string)]).
Proof.
  split; [reflexivity|].
  exact (clearOctomap_without_a_monitor_does_not_return
           S 1 (ClearOctomapService.mkContext None []) eq_refl).
Defined.

(** ** Where the variants, and consecutive calls, disagree *)

(** C1 (what the code does instead): let [w] be the wrapper of the uncached
    ambient state [s], let bounds and translation answer for [w] as they do
    for [s], and let the state pass the bounds, constraint and feasibility
    gates and the boolean collision query report no collision.  The
    constrained checker's [isValid] on [w] returns true and marks the state
    valid; the basic checker's [isValid] on [s] returns false, with or
    without a NaN component in the configuration, and when there is none it
    has marked the state valid as well. *)
Theorem constrained_and_basic_disagree_on_collision_free_states {RobotState : Type}
    (env : Collaborators RobotState) (chk : Checker)
    (s w : loc) (st : StateType.t) (verbose : bool) (W : World RobotState) :
  let rs := copyToRobotState env (tss_ W) (AmbientView (StateType.values st)) in
  heap W !! w = Some (ConstrainedState s) ->
  heap W !! s = Some (ModelBasedState st) ->
  StateType.validity_known st = false ->
  satisfiesBounds env (WrappedView (StateType.values st)) = true ->
  satisfiesBounds env (AmbientView (StateType.values st)) = true ->
  copyToRobotState env (tss_ W) (WrappedView (StateType.values st)) = rs ->
  constraints_satisfied env rs verbose = true ->
  isStateFeasible env rs verbose = true ->
  CollisionResult.collision
    (checkCollision env
       (if verbose then collision_request_simple_verbose_ chk
        else collision_request_simple_ chk) rs) = false ->
  exists Wc Wb,
    ConstrainedPlanningStateValidityChecker.isValid env chk (Some w) verbose W
    = Some (true, Wc)
    /\ StateValidityChecker.isValid env chk (Some s) verbose W = Some (false, Wb)
    /\ heap Wc = <[s := ModelBasedState (StateType.markValid st)]> (heap W)
    /\ (hasNaN (copyJointGroupPositions env rs) = false -> heap Wb = heap Wc).
Proof.
  intros rs Hw Hs Hk Hbw Hbs Ht Hc Hf Hcol. subst rs.
  unfold constraints_satisfied in Hc.
  unfold_method. known. rewrite Ht.
  destruct (getPathConstraints env) as [kset|]; known;
    destruct (hasNaN _) eqn:Hn; known;
    (do 2 eexists; split; [reflexivity|]; split; [reflexivity|];
     split; [reflexivity|]; intros Hfin; first [discriminate Hfin | reflexivity]).
Qed.

(** The collision-free state of the scene: valid through its wrapper,
    invalid when asked directly. *)
Lemma free_state_valid_for_constrained_invalid_for_basic :
  heap (world_of free_state) !! 2%positive = Some (ConstrainedState 1%positive)
  /\ heap (world_of free_state) !! 1%positive = Some (ModelBasedState free_state)
  /\ exists Wc Wb,
       ConstrainedPlanningStateValidityChecker.isValid scene chk w false (world_of free_state)
       = Some (true, Wc)
       /\ StateValidityChecker.isValid scene chk s false (world_of free_state)
          = Some (false, Wb)
       /\ heap Wb = heap Wc.
Proof.
  split; [reflexivity|]. split; [reflexivity|].
  destruct (constrained_and_basic_disagree_on_collision_free_states
              scene chk 1%positive 2%positive free_state false (world_of free_state))
    as (Wc & Wb & Hc & Hb & _ & Hsame); try reflexivity.
  exists Wc, Wb. split; [exact Hc|]. split; [exact Hb|]. apply Hsame. reflexivity.
Defined.

(** After a cache miss and a passed bounds gate a distance overload
    returns, and it has asked for the bounds and translated the state. *)
Lemma isValid_dist_runs_chain {RobotState : Type}
    (env : Collaborators RobotState) (chk : Checker) (variant : CheckerVariant)
    (state p : loc) (st : StateType.t) (v : StateView)
    (verbose : bool) (dist : double) (W : World RobotState) :
  target variant (heap W) state = Some (p, st, v) ->
  StateType.validity_known st && StateType.distance_known st = false ->
  satisfiesBounds env v = true ->
  exists r W' rest,
    isValid_dist env chk variant (Some state) dist verbose W = Some (r, W')
    /\ new_events W W' = EvSatisfiesBounds state :: EvCopyToRobotState state :: rest.
Proof.
  intros Ht Hk Hb.
  destruct variant; use_target Ht; unfold_method; known; rewrite Hk; split_run;
    (do 3 eexists; split; [reflexivity | events]).
Qed.

(** C3 (what the code does instead): take an uncached state that passes the
    bounds, constraint and feasibility gates, with a NaN-free configuration
    and no collision reported.  Two consecutive boolean [isValid] calls of
    the basic checker return false and then true.  Two consecutive calls of
    the distance overload, of either variant, are both cache misses: the
    first leaves the heap as it found it, and the second asks for the
    bounds and translates the state again. *)
Theorem consecutive_isValid_calls_on_an_uncached_state {RobotState : Type}
    (env : Collaborators RobotState) (chk : Checker) (variant : CheckerVariant)
    (state p : loc) (st : StateType.t) (v : StateView)
    (verbose verbose' : bool) (dist dist' : double) (W : World RobotState) :
  let rs := copyToRobotState env (tss_ W) v in
  target variant (heap W) state = Some (p, st, v) ->
  StateType.validity_known st = false ->
  satisfiesBounds env v = true ->
  constraints_satisfied env rs verbose = true ->
  isStateFeasible env rs verbose = true ->
  hasNaN (copyJointGroupPositions env rs) = false ->
  CollisionResult.collision
    (checkCollision env
       (if verbose then collision_request_simple_verbose_ chk
        else collision_request_simple_ chk) rs) = false ->
  (variant = Basic ->
   exists W1,
     isValid env chk Basic (Some state) verbose W = Some (false, W1)
     /\ isValid env chk Basic (Some state) verbose' W1 = Some (true, W1))
  /\ (exists r1 W1 r2 W2 rest,
        isValid_dist env chk variant (Some state) dist verbose W = Some (r1, W1)
        /\ heap W1 = heap W
        /\ isValid_dist env chk variant (Some state) dist' verbose' W1 = Some (r2, W2)
        /\ new_events W1 W2
           = EvSatisfiesBounds state :: EvCopyToRobotState state :: rest).
Proof.
  intros rs Ht Hk Hb Hc Hf Hn Hcol. subst rs.
  unfold constraints_satisfied in Hc. split.
  - intros ->. pose proof Ht as Ht'. use_target Ht'.
    assert (Hrun : exists W1,
      isValid env chk Basic (Some state) verbose W = Some (false, W1)
      /\ heap W1 = <[state := ModelBasedState (StateType.markValid st)]> (heap W)).
    { unfold_method. known.
      destruct (getPathConstraints env) as [kset|]; known;
        (eexists; split; reflexivity). }
    destruct Hrun as (W1 & Hrun & Hheap).
    exists W1. split; [exact Hrun|].
    apply (isValid_cache_hit env chk Basic state state (StateType.markValid st)
             (AmbientView (StateType.values st)) verbose' W1); [|reflexivity].
    rewrite Hheap. apply (target_insert _ _ _ _ st); [exact Ht | reflexivity].
  - assert (Hmiss : StateType.validity_known st && StateType.distance_known st = false)
      by (rewrite Hk; reflexivity).
    assert (Hrun : exists r1 W1,
      isValid_dist env chk variant (Some state) dist verbose W = Some (r1, W1)
      /\ heap W1 = heap W).
    { pose proof Ht as Ht'.
      destruct variant; use_target Ht'; unfold_method; known;
        destruct (getPathConstraints env) as [kset|]; known;
        (do 2 eexists; split; reflexivity). }
    destruct Hrun as (r1 & W1 & Hrun & Hheap).
    destruct (isValid_dist_runs_chain env chk variant state p st v verbose' dist' W1)
      as (r2 & W2 & rest & Hagain & Hev); try assumption.
    { rewrite Hheap. exact Ht. }
    exists r1, W1, r2, W2, rest. auto.
Qed.

(** The collision-free state of the scene, asked twice. *)
Lemma free_state_invalid_then_valid :
  target Basic (heap (world_of free_state)) 1%positive
  = Some (1%positive, free_state, AmbientView (StateType.values free_state))
  /\ exists W1,
       isValid scene chk Basic s false (world_of free_state) = Some (false, W1)
       /\ isValid scene chk Basic s false W1 = Some (true, W1).
Proof.
  split; [reflexivity|].
  exact (proj1 (consecutive_isValid_calls_on_an_uncached_state
                  scene chk Basic 1%positive 1%positive free_state
                  (AmbientView (StateType.values free_state))
                  false false Double.zero Double.zero (world_of free_state)
                  eq_refl eq_refl eq_refl eq_refl eq_refl eq_refl eq_refl) eq_refl).
Defined.

(** C10 (as stated) fails on a state whose joint 0 is NaN: its translated
    configuration has a NaN component, but the path constraint rejects it
    before the NaN test is reached, the state is marked invalid, and the
    next call answers from the cache without running a gate. *)
Lemma nan_state_rejected_by_constraints_is_memoized :
  hasNaN (copyJointGroupPositions scene
            (copyToRobotState scene [] (AmbientView [Double.nan; d 1; d 1]))) = true
  /\ exists W1,
       StateValidityChecker.isValid scene chk s false
         (world_of (fresh [Double.nan; d 1; d 1]))
       = Some (false, W1)
       /\ heap W1 !! 1%positive
          = Some (ModelBasedState
                    (StateType.mk [Double.nan; d 1; d 1] true false false Double.zero))
       /\ trace W1 = [EvSatisfiesBounds 1%positive; EvCopyToRobotState 1%positive;
                      EvDecide false]
       /\ StateValidityChecker.isValid scene chk s false W1 = Some (false, W1).
Proof.
  split; [reflexivity|].
  eexists. split; [vm_compute; reflexivity|].
  split; [reflexivity|]. split; reflexivity.
Qed.
